(** * PrivateYieldPredictorFHE: request/callback correlation

    A shallow embedding of [contracts/PrivateYieldPredictorFHE.sol].

    - [uint256], [bytes32], [address] and the encrypted handles ([euint32],
      [euint64], which wrap a [bytes32]) are integers [Z]; the only
      arithmetic of the contract is the checked [+= 1] of the two counters
      and the truncation [uint160(.)].
    - A Solidity [mapping] is a finite map [gmap Z V] read through [sload],
      which yields the zero value of [V] at a key never written.
    - A contract function is a computation [Exec A] over the storage: it
      either succeeds with a value, the new storage and the effects it
      produced (events, the request sent to the decryption oracle), or
      fails; a failed transaction leaves the storage as it was.
    - The FHE library is outside the contract: [checkSignatures] and
      [abi_decode] are variables of the development, and the request id
      handed out by [FHE.requestDecryption] is part of the transaction's
      environment.  [FHE.requestDecryption] is taken to return: the failures
      modelled are those the contract itself can raise, the rejection of a
      proof and a payload that does not decode. *)

From Stdlib Require Import ZArith List Lia Sorted.
From Stdlib.Strings Require Import String Ascii Byte.
From stdpp Require Import gmap strings list.

Open Scope Z_scope.

(** ** Values *)

Definition bytes := list byte.

Definition uint256_max : Z := 2 ^ 256 - 1.

(** [uint160(v)]: the low 160 bits. *)
Definition uint160 (v : Z) : Z := v mod 2 ^ 160.

Definition is_address (a : Z) : Prop := 0 <= a < 2 ^ 160.

(** ** Structs *)

Module EncryptedSensorData.
Record t := mk {
  id : Z;
  uploader : Z;
  encryptedSoilMoisture : Z;
  encryptedSoilPh : Z;
  encryptedTemperature : Z;
  encryptedHumidity : Z;
  timestamp : Z
}.
Definition zero : t := mk 0 0 0 0 0 0 0.
End EncryptedSensorData.

Module EncryptedModelUpdate.
Record t := mk {
  id : Z;
  contributor : Z;
  encryptedWeightsHash : Z;
  timestamp : Z
}.
Definition zero : t := mk 0 0 0 0.
End EncryptedModelUpdate.

Module DecryptedSuggestion.
Record t := mk {
  advice : string;
  applied : bool
}.
Definition zero : t := mk "" false.
End DecryptedSuggestion.

(** ** Storage *)

Record Storage := mkStorage {
  sensorUploadCount : Z;
  sensorData : gmap Z EncryptedSensorData.t;
  modelUpdates : gmap Z EncryptedModelUpdate.t;
  suggestions : gmap Z DecryptedSuggestion.t;
  modelUpdateCount : Z;
  requestToEntityId : gmap Z Z;
  requestToContext : gmap Z Z
}.

(** The storage of a freshly deployed contract: every slot is zero. *)
Definition deployed : Storage := mkStorage 0 ∅ ∅ ∅ 0 ∅ ∅.

(** Reading [m[k]]: the stored value, or the zero value of the type. *)
Definition sload {V : Type} (zero : V) (m : gmap Z V) (k : Z) : V :=
  default zero (m !! k).

Definition set_sensorUploadCount (v : Z) (s : Storage) : Storage :=
  mkStorage v (sensorData s) (modelUpdates s) (suggestions s)
            (modelUpdateCount s) (requestToEntityId s) (requestToContext s).

Definition set_sensorData (k : Z) (v : EncryptedSensorData.t) (s : Storage) : Storage :=
  mkStorage (sensorUploadCount s) (<[k := v]> (sensorData s)) (modelUpdates s)
            (suggestions s) (modelUpdateCount s) (requestToEntityId s)
            (requestToContext s).

Definition set_modelUpdates (k : Z) (v : EncryptedModelUpdate.t) (s : Storage) : Storage :=
  mkStorage (sensorUploadCount s) (sensorData s) (<[k := v]> (modelUpdates s))
            (suggestions s) (modelUpdateCount s) (requestToEntityId s)
            (requestToContext s).

Definition set_suggestions (k : Z) (v : DecryptedSuggestion.t) (s : Storage) : Storage :=
  mkStorage (sensorUploadCount s) (sensorData s) (modelUpdates s)
            (<[k := v]> (suggestions s)) (modelUpdateCount s)
            (requestToEntityId s) (requestToContext s).

Definition set_modelUpdateCount (v : Z) (s : Storage) : Storage :=
  mkStorage (sensorUploadCount s) (sensorData s) (modelUpdates s) (suggestions s)
            v (requestToEntityId s) (requestToContext s).

Definition set_requestToEntityId (k v : Z) (s : Storage) : Storage :=
  mkStorage (sensorUploadCount s) (sensorData s) (modelUpdates s) (suggestions s)
            (modelUpdateCount s) (<[k := v]> (requestToEntityId s))
            (requestToContext s).

Definition set_requestToContext (k v : Z) (s : Storage) : Storage :=
  mkStorage (sensorUploadCount s) (sensorData s) (modelUpdates s) (suggestions s)
            (modelUpdateCount s) (requestToEntityId s)
            (<[k := v]> (requestToContext s)).

(** ** Events and effects *)

Inductive Event :=
| SensorDataSubmitted (id uploader timestamp : Z)
| ModelUpdateSubmitted (id contributor timestamp : Z)
| AggregationDecryptionRequested (reqId aggId : Z)
| AggregationDecrypted (aggId : Z)
| SuggestionDecryptionRequested (reqId beneficiary : Z)
| SuggestionDecrypted (beneficiary : Z).

(** The callback a decryption request names ([this.f.selector]). *)
Inductive Selector :=
| decryptAggregatedModel_selector
| decryptSuggestion_selector.

Inductive Effect :=
| Emit (e : Event)
| RequestDecryption (ciphertexts : list Z) (callback : Selector) (reqId : Z).

(** ** Failures *)

Inductive Fault :=
| Revert (reason : string)
| Panic (code : Z)
| InvalidSignatures
| DecodeFailure
| SenderNotAllowed.

(** ** The execution monad *)

Inductive Outcome (A : Type) :=
| Success (a : A) (s : Storage) (log : list Effect)
| Failure (f : Fault).
Arguments Success {A} a s log.
Arguments Failure {A} f.

Definition Exec (A : Type) : Type := Storage -> Outcome A.

Definition ret {A} (a : A) : Exec A := fun s => Success a s [].

Definition bind {A B} (m : Exec A) (k : A -> Exec B) : Exec B :=
  fun s =>
    match m s with
    | Success a s1 log1 =>
        match k a s1 with
        | Success b s2 log2 => Success b s2 (log1 ++ log2)
        | Failure f => Failure f
        end
    | Failure f => Failure f
    end.

Definition fail {A} (f : Fault) : Exec A := fun _ => Failure f.

Definition read {A} (field : Storage -> A) : Exec A := fun s => Success (field s) s [].

Definition write (upd : Storage -> Storage) : Exec unit :=
  fun s => Success tt (upd s) [].

Definition effect (e : Effect) : Exec unit := fun s => Success tt s [e].

Definition emit (e : Event) : Exec unit := effect (Emit e).

Definition require (cond : bool) (reason : string) : Exec unit :=
  if cond then ret tt else fail (Revert reason).

(** Checked [a + b] on [uint256]: Panic(0x11) on overflow. *)
Definition checked_add (a b : Z) : Exec Z :=
  if a + b <=? uint256_max then ret (a + b) else fail (Panic 17).

Declare Scope exec_scope.
Delimit Scope exec_scope with exec.
Notation "'let!' x ':=' m 'in' k" := (bind m (fun x => k))
  (at level 10, x name, m at level 100, k at level 200) : exec_scope.
Notation "'do!' m 'in' k" := (bind m (fun _ => k))
  (at level 10, m at level 100, k at level 200) : exec_scope.
Open Scope exec_scope.

(** ** The transaction environment *)

Record Env := mkEnv {
  msg_sender : Z;
  block_timestamp : Z;
  (** the id [FHE.requestDecryption] returns if this transaction calls it *)
  fhe_requestId : Z
}.

(** ** The contract *)

Section Contract.

(** [FHE.checkSignatures(requestId, cleartexts, proof)] of the FHE library,
    as the verdict it reaches: [true] lets the call go on, [false] makes it
    revert. *)
Variable checkSignatures : Z -> bytes -> bytes -> bool.

(** [abi.decode(cleartexts, (string[]))]: [None] when the bytes are not the
    encoding of a [string[]], in which case the call reverts. *)
Variable abi_decode : bytes -> option (list string).

Definition FHE_toBytes32 (handle : Z) : Z := handle.

Definition FHE_requestDecryption (env : Env) (ciphertexts : list Z)
    (callback : Selector) : Exec Z :=
  do! effect (RequestDecryption ciphertexts callback (fhe_requestId env)) in
  ret (fhe_requestId env).

Definition FHE_checkSignatures (requestId : Z) (cleartexts proof : bytes) : Exec unit :=
  if checkSignatures requestId cleartexts proof then ret tt
  else fail InvalidSignatures.

Definition abi_decode_strings (cleartexts : bytes) : Exec (list string) :=
  match abi_decode cleartexts with
  | Some results => ret results
  | None => fail DecodeFailure
  end.

Definition submitEncryptedSensorData (env : Env)
    (encryptedSoilMoisture encryptedSoilPh encryptedTemperature
     encryptedHumidity : Z) : Exec unit :=
  let! count := read sensorUploadCount in
  let! count1 := checked_add count 1 in
  do! write (set_sensorUploadCount count1) in
  let! newId := read sensorUploadCount in
  do! write (set_sensorData newId
               (EncryptedSensorData.mk newId (msg_sender env)
                  encryptedSoilMoisture encryptedSoilPh encryptedTemperature
                  encryptedHumidity (block_timestamp env))) in
  emit (SensorDataSubmitted newId (msg_sender env) (block_timestamp env)).

Definition submitEncryptedModelUpdate (env : Env) (encryptedWeightsHash : Z) : Exec unit :=
  let! count := read modelUpdateCount in
  let! count1 := checked_add count 1 in
  do! write (set_modelUpdateCount count1) in
  let! newId := read modelUpdateCount in
  do! write (set_modelUpdates newId
               (EncryptedModelUpdate.mk newId (msg_sender env)
                  encryptedWeightsHash (block_timestamp env))) in
  emit (ModelUpdateSubmitted newId (msg_sender env) (block_timestamp env)).

(** The loop of [requestAggregationDecryption]: for each position,
    [ciphertexts[i] = FHE.toBytes32(modelUpdates[updateIds[i]].encryptedWeightsHash)]. *)
Fixpoint collect_ciphertexts (updates : gmap Z EncryptedModelUpdate.t)
    (updateIds : list Z) : list Z :=
  match updateIds with
  | [] => []
  | updateId :: rest =>
      let u := sload EncryptedModelUpdate.zero updates updateId in
      FHE_toBytes32 (EncryptedModelUpdate.encryptedWeightsHash u)
        :: collect_ciphertexts updates rest
  end.

Definition requestAggregationDecryption (env : Env) (updateIds : list Z)
    (context : Z) : Exec unit :=
  let len := Z.of_nat (length updateIds) in
  do! require (0 <? len) "empty" in
  let! updates := read modelUpdates in
  let ciphertexts := collect_ciphertexts updates updateIds in
  let! reqId := FHE_requestDecryption env ciphertexts decryptAggregatedModel_selector in
  do! write (set_requestToEntityId reqId 0) in
  do! write (set_requestToContext reqId context) in
  emit (AggregationDecryptionRequested reqId 0).

Definition decryptAggregatedModel (requestId : Z) (cleartexts proof : bytes) : Exec unit :=
  let! context := read (fun s => sload 0 (requestToContext s) requestId) in
  do! require (negb (context =? 0)) "invalid" in
  do! FHE_checkSignatures requestId cleartexts proof in
  let! results := abi_decode_strings cleartexts in
  emit (AggregationDecrypted 0).

Definition requestSuggestionDecryption (env : Env) (beneficiary : Z)
    (encryptedSuggestion : Z) : Exec unit :=
  let ciphertexts := [FHE_toBytes32 encryptedSuggestion] in
  let! reqId := FHE_requestDecryption env ciphertexts decryptSuggestion_selector in
  do! write (set_requestToEntityId reqId (uint160 beneficiary)) in
  do! write (set_requestToContext reqId 0) in
  emit (SuggestionDecryptionRequested reqId beneficiary).

Definition decryptSuggestion (requestId : Z) (cleartexts proof : bytes) : Exec unit :=
  let! beneficiaryKey := read (fun s => sload 0 (requestToEntityId s) requestId) in
  do! require (negb (beneficiaryKey =? 0)) "invalid" in
  do! FHE_checkSignatures requestId cleartexts proof in
  let! results := abi_decode_strings cleartexts in
  let advice := match results with
                | first :: _ => first
                | [] => ""%string
                end in
  let beneficiary := uint160 beneficiaryKey in
  do! write (set_suggestions beneficiary (DecryptedSuggestion.mk advice false)) in
  emit (SuggestionDecrypted beneficiary).

(** A [view] function: it reads the storage and returns. *)
Definition getSuggestion (s : Storage) (beneficiary : Z) : string * bool :=
  let sg := sload DecryptedSuggestion.zero (suggestions s) beneficiary in
  (DecryptedSuggestion.advice sg, DecryptedSuggestion.applied sg).

(** ** Transactions *)

Inductive Call :=
| call_submitEncryptedSensorData (moisture ph temperature humidity : Z)
| call_submitEncryptedModelUpdate (weightsHash : Z)
| call_requestAggregationDecryption (updateIds : list Z) (context : Z)
| call_decryptAggregatedModel (requestId : Z) (cleartexts proof : bytes)
| call_requestSuggestionDecryption (beneficiary encryptedSuggestion : Z)
| call_decryptSuggestion (requestId : Z) (cleartexts proof : bytes).

Record Tx := mkTx { tx_env : Env; tx_call : Call }.

Definition dispatch (tx : Tx) : Exec unit :=
  match tx_call tx with
  | call_submitEncryptedSensorData m p t h =>
      submitEncryptedSensorData (tx_env tx) m p t h
  | call_submitEncryptedModelUpdate w =>
      submitEncryptedModelUpdate (tx_env tx) w
  | call_requestAggregationDecryption ids ctx =>
      requestAggregationDecryption (tx_env tx) ids ctx
  | call_decryptAggregatedModel r c p => decryptAggregatedModel r c p
  | call_requestSuggestionDecryption b e =>
      requestSuggestionDecryption (tx_env tx) b e
  | call_decryptSuggestion r c p => decryptSuggestion r c p
  end.

(** A transaction that fails is rolled back: storage and log stay as they
    were. *)
Definition execute (s : Storage) (tx : Tx) : Storage * list Effect :=
  match dispatch tx s with
  | Success _ s' log => (s', log)
  | Failure _ => (s, [])
  end.

Fixpoint run (s : Storage) (txs : list Tx) : Storage * list Effect :=
  match txs with
  | [] => (s, [])
  | tx :: rest =>
      let (s1, log1) := execute s tx in
      let (s2, log2) := run s1 rest in
      (s2, log1 ++ log2)
  end.

Definition state_after (txs : list Tx) : Storage := fst (run deployed txs).
Definition log_after (txs : list Tx) : list Effect := snd (run deployed txs).

(** The callback a selector names, and the transaction that invokes it. *)
Definition resolve (callback : Selector) : Z -> bytes -> bytes -> Exec unit :=
  match callback with
  | decryptAggregatedModel_selector => decryptAggregatedModel
  | decryptSuggestion_selector => decryptSuggestion
  end.

Definition call_resolve (callback : Selector) : Z -> bytes -> bytes -> Call :=
  match callback with
  | decryptAggregatedModel_selector => call_decryptAggregatedModel
  | decryptSuggestion_selector => call_decryptSuggestion
  end.

(** The binding a callback checks before anything else: the context for
    [decryptAggregatedModel], the entity key for [decryptSuggestion].  A
    request can be resolved by a callback while that binding is not zero. *)
Definition binding (callback : Selector) (s : Storage) (requestId : Z) : Z :=
  match callback with
  | decryptAggregatedModel_selector => sload 0 (requestToContext s) requestId
  | decryptSuggestion_selector => sload 0 (requestToEntityId s) requestId
  end.

(** The request ids the oracle handed out in a log. *)
Definition issued (log : list Effect) : list Z :=
  flat_map (fun e => match e with
                     | RequestDecryption _ _ reqId => [reqId]
                     | Emit _ => []
                     end) log.

(** The ids announced by the two submission events of a log. *)
Definition sensor_ids (log : list Effect) : list Z :=
  flat_map (fun e => match e with
                     | Emit (SensorDataSubmitted id _ _) => [id]
                     | _ => []
                     end) log.

Definition model_ids (log : list Effect) : list Z :=
  flat_map (fun e => match e with
                     | Emit (ModelUpdateSubmitted id _ _) => [id]
                     | _ => []
                     end) log.

Definition is_sensor_submission (tx : Tx) : bool :=
  match tx_call tx with
  | call_submitEncryptedSensorData _ _ _ _ => true
  | _ => false
  end.

Definition is_model_submission (tx : Tx) : bool :=
  match tx_call tx with
  | call_submitEncryptedModelUpdate _ => true
  | _ => false
  end.

End Contract.

(** ** The decryption request under the library's access control

    [FHE.requestDecryption] asks the ACL of the FHE library to allow the
    handles for decryption, and the ACL reverts with [SenderNotAllowed]
    unless the calling contract is allowed on each of them.  The contract
    above takes that call to return.  Here the ACL is a variable,
    [acl_allowed handle] telling whether this contract is allowed on a
    handle, and [requestAggregationDecryption] is the same function with the
    library call failing as the ACL decides. *)
Module WithAcl.

Section Acl.

Variable acl_allowed : Z -> bool.

Definition FHE_requestDecryption (env : Env) (ciphertexts : list Z)
    (callback : Selector) : Exec Z :=
  if forallb acl_allowed ciphertexts
  then FHE_requestDecryption env ciphertexts callback
  else fail SenderNotAllowed.

Definition requestAggregationDecryption (env : Env) (updateIds : list Z)
    (context : Z) : Exec unit :=
  let len := Z.of_nat (length updateIds) in
  do! require (0 <? len) "empty" in
  let! updates := read modelUpdates in
  let ciphertexts := collect_ciphertexts updates updateIds in
  let! reqId := FHE_requestDecryption env ciphertexts decryptAggregatedModel_selector in
  do! write (set_requestToEntityId reqId 0) in
  do! write (set_requestToContext reqId context) in
  emit (AggregationDecryptionRequested reqId 0).

(** The transaction that makes the call: rolled back when it fails. *)
Definition execute_request (env : Env) (updateIds : list Z) (context : Z)
    (s : Storage) : Storage * list Effect :=
  match requestAggregationDecryption env updateIds context s with
  | Success _ s' log => (s', log)
  | Failure _ => (s, [])
  end.

End Acl.

End WithAcl.

(** ** The registries as tables

    A registry is a counter with a table keyed by the ids handed out so far.
    [table_ok] says what the two submission functions keep: the counter is a
    [uint256], the keys of the table are exactly [1 .. counter], and each
    record carries its own key in its [id] field. *)
Definition table_ok {V : Type} (count : Storage -> Z) (table : Storage -> gmap Z V)
    (key_of : V -> Z) (s : Storage) : Prop :=
  0 <= count s <= uint256_max
  /\ forall k,
       match table s !! k with
       | Some v => 1 <= k <= count s /\ key_of v = k
       | None => ~ (1 <= k <= count s)
       end.


(** The two helpers at the end of the contract: casts that keep the value. *)
Definition bytes32ToUint (b : Z) : Z := b.

Definition uintToAddressUint256 (v : Z) : Z := v.

(** The invariant of the suggestions: no stored record is marked applied. *)
Definition unapplied (s : Storage) : Prop :=
  forall beneficiary sg,
    suggestions s !! beneficiary = Some sg -> DecryptedSuggestion.applied sg = false.

(** ** A concrete decoder and a test oracle

    The theorems below hold for every [checkSignatures] and every
    [abi_decode].  To evaluate calls on concrete inputs, [Abi] gives the
    decoding of a [string[]] after the contract ABI (a head word with the
    offset of the array, the array length, one offset per element relative to
    the start of the offsets, and length-prefixed strings), with the bounds
    checks a decoder makes before each read, and [test_checkSignatures] is a
    stand-in oracle that accepts the one-byte proof [0x01] and nothing else. *)

Module Abi.

Definition Z_of_byte (b : byte) : Z := Z.of_N (Byte.to_N b).

Definition byte_of_Z (z : Z) : byte :=
  default x00 (Byte.of_N (Z.to_N (z mod 256))).

(** Big-endian value of a run of bytes. *)
Definition be_value (bs : bytes) : Z :=
  fold_left (fun acc b => acc * 256 + Z_of_byte b) bs 0.

(** The 32-byte word at a position of the data. *)
Definition mload (data : bytes) (pos : Z) : Z :=
  be_value (take 32 (drop (Z.to_nat pos) data)).

Definition uint64_max : Z := 2 ^ 64 - 1.

Definition decode_string (data : bytes) (offset : Z) : option string :=
  let dataEnd := Z.of_nat (length data) in
  if negb (offset + 31 <? dataEnd) then None else
  let len := mload data offset in
  if uint64_max <? len then None else
  if dataEnd <? offset + 32 + len then None else
  Some (string_of_list_byte
          (take (Z.to_nat len) (drop (Z.to_nat (offset + 32)) data))).

Fixpoint decode_elements (data : bytes) (base : Z) (src : Z) (n : nat)
    : option (list string) :=
  match n with
  | O => Some []
  | S n' =>
      let innerOffset := mload data src in
      if uint64_max <? innerOffset then None else
      match decode_string data (base + innerOffset) with
      | None => None
      | Some str =>
          match decode_elements data base (src + 32) n' with
          | None => None
          | Some strs => Some (str :: strs)
          end
      end
  end.

Definition decode (data : bytes) : option (list string) :=
  let dataEnd := Z.of_nat (length data) in
  if dataEnd <? 32 then None else
  let offset := mload data 0 in
  if uint64_max <? offset then None else
  if negb (offset + 31 <? dataEnd) then None else
  let len := mload data offset in
  if uint64_max <? len then None else
  let base := offset + 32 in
  if dataEnd <? base + len * 32 then None else
  decode_elements data base base (Z.to_nat len).

(** The matching encoder, used to write payloads down. *)
Fixpoint be_bytes (n : nat) (z : Z) : bytes :=
  match n with
  | O => []
  | S n' => be_bytes n' (z / 256) ++ [byte_of_Z z]
  end.

Definition word (z : Z) : bytes := be_bytes 32 z.

Definition padded (bs : bytes) : bytes :=
  bs ++ repeat x00 (Z.to_nat ((- Z.of_nat (length bs)) mod 32)).

Definition encode_string (str : string) : bytes :=
  let bs := list_byte_of_string str in
  word (Z.of_nat (length bs)) ++ padded bs.

Fixpoint encode_elements (strs : list string) (offset : Z) : bytes * bytes :=
  match strs with
  | [] => ([], [])
  | str :: rest =>
      let body := encode_string str in
      let (heads, tails) := encode_elements rest (offset + Z.of_nat (length body)) in
      (word offset ++ heads, body ++ tails)
  end.

Definition encode (strs : list string) : bytes :=
  let n := Z.of_nat (length strs) in
  let (heads, tails) := encode_elements strs (32 * n) in
  word 32 ++ word n ++ heads ++ tails.

End Abi.

Definition test_checkSignatures (requestId : Z) (cleartexts proof : bytes) : bool :=
  match proof with
  | [b] => Byte.eqb b x01
  | _ => false
  end.

Definition good_proof : bytes := [x01].
Definition bad_proof : bytes := [x00].

(** ** A deployment to evaluate on

    Three sensor readings and two model updates are submitted, an
    aggregation over the model updates 1 and 2 is requested (the oracle
    answers with request id 8, the context is [0xc1]), and a suggestion is
    requested for [bob] (request id 7). *)

Module Scenario.

Definition alice : Z := 0xa11ce.
Definition bob : Z := 0xb0b.
Definition oracle : Z := 0x04ac1e.

Definition env_at (sender timestamp : Z) : Env := mkEnv sender timestamp 0.

Definition requests_aggregation : Tx :=
  mkTx (mkEnv alice 1006 8) (call_requestAggregationDecryption [1; 2] 0xc1).

Definition requests_suggestion : Tx :=
  mkTx (mkEnv alice 1007 7) (call_requestSuggestionDecryption bob 0x5e).

Definition history : list Tx :=
  [ mkTx (env_at alice 1001) (call_submitEncryptedSensorData 11 12 13 14);
    mkTx (env_at bob 1002) (call_submitEncryptedModelUpdate 0xe1);
    mkTx (env_at bob 1003) (call_submitEncryptedSensorData 21 22 23 24);
    mkTx (env_at alice 1004) (call_submitEncryptedModelUpdate 0xe2);
    mkTx (env_at alice 1005) (call_submitEncryptedSensorData 31 32 33 34);
    requests_aggregation;
    requests_suggestion ].

Definition requested : Storage :=
  state_after test_checkSignatures Abi.decode history.

Definition advice_payload : bytes := Abi.encode ["Increase irrigation by 10%"%string].
Definition second_payload : bytes := Abi.encode ["Reduce nitrogen"%string].
Definition empty_payload : bytes := Abi.encode [].
Definition summary_payload : bytes := Abi.encode ["model-7"%string; "meta"%string].

(** The oracle's answers arrive. *)
Definition resolves_suggestion (cleartexts proof : bytes) : Tx :=
  mkTx (env_at oracle 1010) (call_decryptSuggestion 7 cleartexts proof).

Definition resolves_aggregation (cleartexts proof : bytes) : Tx :=
  mkTx (env_at oracle 1011) (call_decryptAggregatedModel 8 cleartexts proof).

(** The storage after [bob]'s suggestion was resolved once. *)
Definition resolved_once : Storage :=
  fst (execute test_checkSignatures Abi.decode requested
         (resolves_suggestion advice_payload good_proof)).

(** An aggregation request over an id no model update has. *)
Definition requests_unknown : Tx :=
  mkTx (mkEnv alice 1000 9) (call_requestAggregationDecryption [42] 0xc2).

(** The ACL while nobody has allowed the contract on a handle; the contract
    itself never asks for it. *)
Definition acl_nothing_allowed (handle : Z) : bool := false.

(** Requests that carry the zero sentinel themselves. *)
Definition requests_aggregation_without_context : Tx :=
  mkTx (mkEnv alice 1008 5) (call_requestAggregationDecryption [1] 0).

Definition requests_suggestion_for_nobody : Tx :=
  mkTx (mkEnv alice 1009 6) (call_requestSuggestionDecryption 0 0x5f).

End Scenario.

(** * Properties *)

(** Unfolding the monad: what a function does to a given storage. *)
Ltac exec_simpl :=
  cbv [bind ret fail read write effect emit require checked_add
       FHE_requestDecryption FHE_checkSignatures abi_decode_strings
       FHE_toBytes32].

Section Properties.

Variable checkSignatures : Z -> bytes -> bytes -> bool.
Variable abi_decode : bytes -> option (list string).

Abbreviation decryptAggregatedModel := (decryptAggregatedModel checkSignatures abi_decode).
Abbreviation decryptSuggestion := (decryptSuggestion checkSignatures abi_decode).
Abbreviation resolve := (resolve checkSignatures abi_decode).
Abbreviation dispatch := (dispatch checkSignatures abi_decode).
Abbreviation execute := (execute checkSignatures abi_decode).
Abbreviation run := (run checkSignatures abi_decode).
Abbreviation state_after := (state_after checkSignatures abi_decode).
Abbreviation log_after := (log_after checkSignatures abi_decode).

(** ** One equation per function *)

Lemma submitEncryptedSensorData_eq env m p t h s :
  submitEncryptedSensorData env m p t h s =
  if sensorUploadCount s + 1 <=? uint256_max then
    let newId := sensorUploadCount s + 1 in
    Success tt
      (set_sensorData newId
         (EncryptedSensorData.mk newId (msg_sender env) m p t h (block_timestamp env))
         (set_sensorUploadCount newId s))
      [Emit (SensorDataSubmitted newId (msg_sender env) (block_timestamp env))]
  else Failure (Panic 17).
Proof.
  unfold submitEncryptedSensorData. exec_simpl.
  destruct (sensorUploadCount s + 1 <=? uint256_max); reflexivity.
Qed.

Lemma submitEncryptedModelUpdate_eq env w s :
  submitEncryptedModelUpdate env w s =
  if modelUpdateCount s + 1 <=? uint256_max then
    let newId := modelUpdateCount s + 1 in
    Success tt
      (set_modelUpdates newId
         (EncryptedModelUpdate.mk newId (msg_sender env) w (block_timestamp env))
         (set_modelUpdateCount newId s))
      [Emit (ModelUpdateSubmitted newId (msg_sender env) (block_timestamp env))]
  else Failure (Panic 17).
Proof.
  unfold submitEncryptedModelUpdate. exec_simpl.
  destruct (modelUpdateCount s + 1 <=? uint256_max); reflexivity.
Qed.

Lemma requestAggregationDecryption_eq env updateIds context s :
  requestAggregationDecryption env updateIds context s =
  match updateIds with
  | [] => Failure (Revert "empty")
  | _ :: _ =>
      let reqId := fhe_requestId env in
      Success tt
        (set_requestToContext reqId context (set_requestToEntityId reqId 0 s))
        [RequestDecryption (collect_ciphertexts (modelUpdates s) updateIds)
           decryptAggregatedModel_selector reqId;
         Emit (AggregationDecryptionRequested reqId 0)]
  end.
Proof.
  unfold requestAggregationDecryption. exec_simpl.
  destruct updateIds as [|u rest]; [reflexivity|].
  replace (0 <? Z.of_nat (length (u :: rest))) with true; [reflexivity|].
  symmetry. apply Z.ltb_lt. simpl length. lia.
Qed.

Lemma requestSuggestionDecryption_eq env beneficiary handle s :
  requestSuggestionDecryption env beneficiary handle s =
  let reqId := fhe_requestId env in
  Success tt
    (set_requestToContext reqId 0
       (set_requestToEntityId reqId (uint160 beneficiary) s))
    [RequestDecryption [handle] decryptSuggestion_selector reqId;
     Emit (SuggestionDecryptionRequested reqId beneficiary)].
Proof. reflexivity. Qed.

Lemma decryptAggregatedModel_eq requestId cleartexts proof s :
  decryptAggregatedModel requestId cleartexts proof s =
  if sload 0 (requestToContext s) requestId =? 0 then Failure (Revert "invalid")
  else if checkSignatures requestId cleartexts proof then
    match abi_decode cleartexts with
    | Some _ => Success tt s [Emit (AggregationDecrypted 0)]
    | None => Failure DecodeFailure
    end
  else Failure InvalidSignatures.
Proof.
  unfold decryptAggregatedModel. exec_simpl.
  destruct (sload 0 (requestToContext s) requestId =? 0); simpl; [reflexivity|].
  destruct (checkSignatures requestId cleartexts proof); [|reflexivity].
  destruct (abi_decode cleartexts); reflexivity.
Qed.

Lemma decryptSuggestion_eq requestId cleartexts proof s :
  decryptSuggestion requestId cleartexts proof s =
  let beneficiaryKey := sload 0 (requestToEntityId s) requestId in
  if beneficiaryKey =? 0 then Failure (Revert "invalid")
  else if checkSignatures requestId cleartexts proof then
    match abi_decode cleartexts with
    | Some results =>
        Success tt
          (set_suggestions (uint160 beneficiaryKey)
             (DecryptedSuggestion.mk (hd ""%string results) false) s)
          [Emit (SuggestionDecrypted (uint160 beneficiaryKey))]
    | None => Failure DecodeFailure
    end
  else Failure InvalidSignatures.
Proof.
  unfold decryptSuggestion. exec_simpl. cbv zeta.
  destruct (sload 0 (requestToEntityId s) requestId =? 0); simpl; [reflexivity|].
  destruct (checkSignatures requestId cleartexts proof); [|reflexivity].
  destruct (abi_decode cleartexts) as [[|r rs]|]; reflexivity.
Qed.

(** ** Transactions, one at a time *)

Lemma sload_insert_eq {V} (zero : V) (m : gmap Z V) k v :
  sload zero (<[k := v]> m) k = v.
Proof. unfold sload. by rewrite lookup_insert_eq. Qed.

Lemma sload_insert_ne {V} (zero : V) (m : gmap Z V) k k' v :
  k <> k' -> sload zero (<[k := v]> m) k' = sload zero m k'.
Proof. intros Hne. unfold sload. by rewrite lookup_insert_ne. Qed.

Lemma sload_empty {V} (zero : V) k : sload zero (∅ : gmap Z V) k = zero.
Proof. unfold sload. by rewrite lookup_empty. Qed.

Lemma resolve_eq callback requestId cleartexts proof s :
  resolve callback requestId cleartexts proof s =
  if binding callback s requestId =? 0 then Failure (Revert "invalid")
  else if checkSignatures requestId cleartexts proof then
    match abi_decode cleartexts with
    | Some results =>
        match callback with
        | decryptAggregatedModel_selector =>
            Success tt s [Emit (AggregationDecrypted 0)]
        | decryptSuggestion_selector =>
            let beneficiary := uint160 (binding callback s requestId) in
            Success tt
              (set_suggestions beneficiary
                 (DecryptedSuggestion.mk (hd ""%string results) false) s)
              [Emit (SuggestionDecrypted beneficiary)]
        end
    | None => Failure DecodeFailure
    end
  else Failure InvalidSignatures.
Proof.
  destruct callback; simpl.
  - rewrite decryptAggregatedModel_eq.
    cbn [binding].
    destruct (sload 0 (requestToContext s) requestId =? 0); [reflexivity|].
    destruct (checkSignatures requestId cleartexts proof); [|reflexivity].
    destruct (abi_decode cleartexts); reflexivity.
  - rewrite decryptSuggestion_eq. reflexivity.
Qed.

Lemma dispatch_resolve env callback requestId cleartexts proof :
  dispatch (mkTx env (call_resolve callback requestId cleartexts proof)) =
  resolve callback requestId cleartexts proof.
Proof. destruct callback; reflexivity. Qed.

(** Splitting a transaction into its cases, each with the function's
    equation in place of the call. *)
Ltac call_cases :=
  unfold execute, dispatch; cbn [tx_call tx_env];
  rewrite ?submitEncryptedSensorData_eq, ?submitEncryptedModelUpdate_eq,
    ?requestAggregationDecryption_eq, ?requestSuggestionDecryption_eq,
    ?decryptAggregatedModel_eq, ?decryptSuggestion_eq;
  cbv zeta;
  repeat match goal with
    | |- context [if ?b then _ else _] => destruct b eqn:?
    | |- context [match abi_decode ?c with _ => _ end] =>
        destruct (abi_decode c) eqn:?
    | |- context [match ?l with [] => _ | _ :: _ => _ end] =>
        destruct l eqn:?
    end;
  cbn [fst snd].

Ltac tx_cases tx :=
  let env := fresh "env" in
  destruct tx as [env [m p t h|w|ids ctx|r c p|b e|r c p]];
  call_cases.

(** A transaction writes the bindings of the request id it was handed, and
    of no other. *)
Lemma execute_binding_frame s tx callback requestId :
  ~ In requestId (issued (snd (execute s tx))) ->
  binding callback (fst (execute s tx)) requestId = binding callback s requestId.
Proof.
  tx_cases tx; intros Hfresh; try reflexivity;
    cbn [issued flat_map app In] in Hfresh;
    destruct callback;
    cbn [binding set_requestToContext set_requestToEntityId
         requestToContext requestToEntityId];
    rewrite ?sload_insert_ne by tauto; reflexivity.
Qed.

(** Only a successful [decryptSuggestion] writes [suggestions], and it
    announces the beneficiary it wrote. *)
Lemma execute_suggestions_frame s tx beneficiary :
  ~ In (Emit (SuggestionDecrypted beneficiary)) (snd (execute s tx)) ->
  suggestions (fst (execute s tx)) !! beneficiary = suggestions s !! beneficiary.
Proof.
  tx_cases tx; intros Hquiet; try reflexivity.
  cbn [set_suggestions suggestions In] in *.
  rewrite lookup_insert_ne; [reflexivity|].
  intros Heq. apply Hquiet. left. by rewrite Heq.
Qed.

(** Every record a transaction stores has [applied = false]. *)
Lemma execute_unapplied s tx : unapplied s -> unapplied (fst (execute s tx)).
Proof.
  tx_cases tx; intros Hinv; try exact Hinv.
  intros b' sg. cbn [set_suggestions suggestions]. rewrite lookup_insert.
  case_decide; [intros [= <-]; reflexivity | apply Hinv].
Qed.

(** ** Sequences of transactions *)

Lemma run_cons s tx txs :
  run s (tx :: txs) =
  (fst (run (fst (execute s tx)) txs),
   snd (execute s tx) ++ snd (run (fst (execute s tx)) txs)).
Proof.
  cbn [run]. destruct (execute s tx) as [s1 log1]. cbn [fst snd].
  destruct (run s1 txs) as [s2 log2]. reflexivity.
Qed.

Lemma issued_app log1 log2 : issued (log1 ++ log2) = issued log1 ++ issued log2.
Proof. unfold issued. apply flat_map_app. Qed.

Lemma run_invariant (P : Storage -> Prop) :
  (forall s tx, P s -> P (fst (execute s tx))) ->
  forall txs s, P s -> P (fst (run s txs)).
Proof.
  intros Hstep txs. induction txs as [|tx txs IH]; intros s Hs; [exact Hs|].
  rewrite run_cons. cbn [fst]. apply IH, Hstep, Hs.
Qed.

Lemma run_binding_frame txs : forall s callback requestId,
  ~ In requestId (issued (snd (run s txs))) ->
  binding callback (fst (run s txs)) requestId = binding callback s requestId.
Proof.
  induction txs as [|tx txs IH]; intros s callback requestId Hfresh; [reflexivity|].
  rewrite run_cons in *. cbn [fst snd] in *.
  rewrite issued_app, in_app_iff in Hfresh.
  rewrite IH by tauto. apply execute_binding_frame. tauto.
Qed.

Lemma run_suggestions_frame txs : forall s beneficiary,
  ~ In (Emit (SuggestionDecrypted beneficiary)) (snd (run s txs)) ->
  suggestions (fst (run s txs)) !! beneficiary = suggestions s !! beneficiary.
Proof.
  induction txs as [|tx txs IH]; intros s beneficiary Hquiet; [reflexivity|].
  rewrite run_cons in *. cbn [fst snd] in *.
  rewrite in_app_iff in Hquiet.
  rewrite IH by tauto. apply execute_suggestions_frame. tauto.
Qed.

(** ** Claims about the callbacks *)

(** C4. A request id the oracle never handed out has both bindings at
    zero, so either callback called with it reverts on its first check
    (["invalid"]), whatever payload and proof come with it; the transaction
    is rolled back, so the storage -- the suggestions among it -- and the log
    are exactly as before. *)
Theorem C4_unknown_request_rejected
    (txs : list Tx) (callback : Selector) (requestId : Z)
    (cleartexts proof : bytes) (env : Env) :
  ~ In requestId (issued (log_after txs)) ->
  resolve callback requestId cleartexts proof (state_after txs)
    = Failure (Revert "invalid")
  /\ execute (state_after txs)
       (mkTx env (call_resolve callback requestId cleartexts proof))
     = (state_after txs, []).
Proof.
  intros Hfresh.
  assert (Hzero : binding callback (state_after txs) requestId = 0).
  { unfold state_after, log_after in *.
    rewrite run_binding_frame by exact Hfresh.
    destruct callback; apply sload_empty. }
  assert (Hfail : resolve callback requestId cleartexts proof (state_after txs)
                  = Failure (Revert "invalid")).
  { rewrite resolve_eq, Hzero. reflexivity. }
  split; [exact Hfail|].
  unfold execute. rewrite dispatch_resolve, Hfail. reflexivity.
Qed.

(** C5 (as the contract has it). While the binding a callback checks is in
    place (the request is pending for it), a call whose proof the oracle
    rejects fails and is rolled back: the storage (the binding and the
    suggestions with it) and the log are unchanged, so any later call meets
    exactly the storage it would have met without the failed attempt.  A
    later call for the same request id with a proof the oracle accepts then
    succeeds when its payload decodes as a [string[]]. *)
Theorem C5_invalid_proof_keeps_request_pending
    (callback : Selector) (s : Storage) (requestId : Z) (env : Env)
    (cleartexts proof cleartexts' proof' : bytes) (results : list string) :
  binding callback s requestId <> 0 ->
  checkSignatures requestId cleartexts proof = false ->
  checkSignatures requestId cleartexts' proof' = true ->
  abi_decode cleartexts' = Some results ->
  let rejected := mkTx env (call_resolve callback requestId cleartexts proof) in
  resolve callback requestId cleartexts proof s = Failure InvalidSignatures
  /\ execute s rejected = (s, [])
  /\ binding callback (fst (execute s rejected)) requestId <> 0
  /\ (forall anyId anyCleartexts anyProof,
        resolve callback anyId anyCleartexts anyProof (fst (execute s rejected))
        = resolve callback anyId anyCleartexts anyProof s)
  /\ exists s' log,
       resolve callback requestId cleartexts' proof' (fst (execute s rejected))
       = Success tt s' log.
Proof.
  intros Hpending Hbad Hgood Hdecode rejected.
  apply Z.eqb_neq in Hpending.
  assert (Hfail : resolve callback requestId cleartexts proof s
                  = Failure InvalidSignatures).
  { rewrite resolve_eq, Hpending, Hbad. reflexivity. }
  assert (Hroll : execute s rejected = (s, [])).
  { unfold execute, rejected. rewrite dispatch_resolve, Hfail. reflexivity. }
  rewrite Hroll. cbn [fst].
  split; [exact Hfail|]. split; [reflexivity|].
  split; [by apply Z.eqb_neq|]. split; [reflexivity|].
  rewrite resolve_eq, Hpending, Hgood, Hdecode.
  destruct callback; eauto.
Qed.

(** C6. A suggestion request resolves when its entity key is not zero, the
    oracle accepts the proof and the payload decodes to a list.  The record
    stored for the bound beneficiary is then the first element of the list
    (the empty string when the list is empty) with [applied = false],
    whatever was stored for that beneficiary before; the records of the
    other beneficiaries are untouched. *)
Theorem C6_suggestion_stored
    (s : Storage) (requestId : Z) (cleartexts proof : bytes)
    (results : list string) :
  sload 0 (requestToEntityId s) requestId <> 0 ->
  checkSignatures requestId cleartexts proof = true ->
  abi_decode cleartexts = Some results ->
  let beneficiary := uint160 (sload 0 (requestToEntityId s) requestId) in
  exists s',
    decryptSuggestion requestId cleartexts proof s
      = Success tt s' [Emit (SuggestionDecrypted beneficiary)]
    /\ getSuggestion s' beneficiary
       = (match results with first :: _ => first | [] => ""%string end, false)
    /\ (results = [] -> getSuggestion s' beneficiary = (""%string, false))
    /\ forall other, other <> beneficiary ->
         getSuggestion s' other = getSuggestion s other.
Proof.
  intros Hkey Hok Hdecode beneficiary.
  apply Z.eqb_neq in Hkey.
  rewrite decryptSuggestion_eq. cbv zeta. rewrite Hkey, Hok, Hdecode.
  eexists; split; [reflexivity|].
  unfold getSuggestion. cbn [set_suggestions suggestions].
  fold beneficiary. rewrite sload_insert_eq.
  cbn [DecryptedSuggestion.advice DecryptedSuggestion.applied].
  split; [|split].
  - destruct results; reflexivity.
  - intros ->. reflexivity.
  - intros other Hother. rewrite sload_insert_ne by congruence. reflexivity.
Qed.

(** From the request to the record: a suggestion requested for a non-zero
    address and resolved right away is what [getSuggestion] returns for that
    address. *)
Lemma requested_suggestion_resolves
    (s : Storage) (env : Env) (beneficiary handle : Z)
    (cleartexts proof : bytes) (results : list string) :
  is_address beneficiary -> beneficiary <> 0 ->
  checkSignatures (fhe_requestId env) cleartexts proof = true ->
  abi_decode cleartexts = Some results ->
  let s1 := fst (execute s (mkTx env (call_requestSuggestionDecryption beneficiary handle))) in
  let s2 := fst (execute s1 (mkTx env (call_decryptSuggestion (fhe_requestId env)
                                         cleartexts proof))) in
  getSuggestion s2 beneficiary = (hd ""%string results, false).
Proof.
  intros Haddr Hnonzero Hok Hdecode s1 s2.
  assert (Hkey : sload 0 (requestToEntityId s1) (fhe_requestId env) = beneficiary).
  { unfold s1, execute, dispatch. cbn [tx_call tx_env].
    rewrite requestSuggestionDecryption_eq. cbv zeta.
    cbn [fst set_requestToContext set_requestToEntityId requestToEntityId].
    rewrite sload_insert_eq. unfold uint160. apply Z.mod_small. exact Haddr. }
  unfold s2, execute, dispatch. cbn [tx_call tx_env].
  rewrite decryptSuggestion_eq. cbv zeta. rewrite Hkey.
  apply Z.eqb_neq in Hnonzero. rewrite Hnonzero, Hok, Hdecode.
  cbn [fst]. unfold getSuggestion. cbn [set_suggestions suggestions].
  replace (uint160 beneficiary) with beneficiary
    by (unfold uint160; symmetry; apply Z.mod_small; exact Haddr).
  rewrite sload_insert_eq. reflexivity.
Qed.

(** C8. As long as no suggestion was decrypted for a beneficiary,
    [getSuggestion] returns the empty advice and [false] for it.
    [getSuggestion] is a function of the storage alone: it cannot fail and
    has no storage to return. *)
Theorem C8_getSuggestion_default (txs : list Tx) (beneficiary : Z) :
  ~ In (Emit (SuggestionDecrypted beneficiary)) (log_after txs) ->
  getSuggestion (state_after txs) beneficiary = (""%string, false).
Proof.
  intros Hquiet. unfold getSuggestion, sload, state_after, log_after in *.
  rewrite run_suggestions_frame by exact Hquiet.
  cbn [deployed suggestions]. rewrite lookup_empty. reflexivity.
Qed.

(** C10. After any sequence of transactions, every stored suggestion has
    [applied = false], and so has the answer of [getSuggestion] for every
    beneficiary. *)
Theorem C10_applied_never_set (txs : list Tx) (beneficiary : Z) :
  snd (getSuggestion (state_after txs) beneficiary) = false
  /\ forall sg, suggestions (state_after txs) !! beneficiary = Some sg ->
       DecryptedSuggestion.applied sg = false.
Proof.
  assert (Hinv : unapplied (state_after txs)).
  { unfold state_after. apply run_invariant; [apply execute_unapplied|].
    intros b sg. cbn [deployed suggestions]. by rewrite lookup_empty. }
  split; [|apply Hinv].
  unfold getSuggestion, sload. cbn [snd].
  destruct (suggestions (state_after txs) !! beneficiary) as [sg|] eqn:Hsg;
    cbn [default]; [by apply (Hinv beneficiary)|reflexivity].
Qed.

(** ** The two registries *)

(** What is common to the two counters: a counter of the storage and the
    ids a log announces for it, such that a transaction either leaves the
    counter alone and announces nothing, or adds one to it and announces the
    new value. *)
Section Registry.

Variable count : Storage -> Z.
Variable ids : list Effect -> list Z.

Hypothesis ids_app : forall log1 log2, ids (log1 ++ log2) = ids log1 ++ ids log2.
Hypothesis ids_nil : ids [] = [].
Hypothesis step : forall s tx,
  (ids (snd (execute s tx)) = [] /\ count (fst (execute s tx)) = count s)
  \/ (ids (snd (execute s tx)) = [count s + 1]
      /\ count (fst (execute s tx)) = count s + 1).

Lemma registry_ids txs : forall s,
  ids (snd (run s txs))
    = seqZ (count s + 1) (Z.of_nat (length (ids (snd (run s txs)))))
  /\ count (fst (run s txs))
     = count s + Z.of_nat (length (ids (snd (run s txs)))).
Proof.
  induction txs as [|tx txs IH]; intros s.
  - cbn [run fst snd]. rewrite ids_nil. cbn [length]. split; [reflexivity|lia].
  - rewrite run_cons. cbn [fst snd]. rewrite ids_app.
    destruct (IH (fst (execute s tx))) as [IHids IHcount].
    destruct (step s tx) as [[Hids Hcount]|[Hids Hcount]];
      rewrite Hids, Hcount in *.
    + cbn [app]. split; assumption.
    + cbn [app length]. split.
      * rewrite seqZ_cons by lia. f_equal.
        rewrite IHids at 1. f_equal; lia.
      * lia.
Qed.

End Registry.

Lemma sensor_ids_app log1 log2 :
  sensor_ids (log1 ++ log2) = sensor_ids log1 ++ sensor_ids log2.
Proof. unfold sensor_ids. apply flat_map_app. Qed.

Lemma model_ids_app log1 log2 :
  model_ids (log1 ++ log2) = model_ids log1 ++ model_ids log2.
Proof. unfold model_ids. apply flat_map_app. Qed.

Lemma execute_sensor_step s tx :
  (sensor_ids (snd (execute s tx)) = []
   /\ sensorUploadCount (fst (execute s tx)) = sensorUploadCount s)
  \/ (sensor_ids (snd (execute s tx)) = [sensorUploadCount s + 1]
      /\ sensorUploadCount (fst (execute s tx)) = sensorUploadCount s + 1).
Proof. tx_cases tx; auto. Qed.

Lemma execute_model_step s tx :
  (model_ids (snd (execute s tx)) = []
   /\ modelUpdateCount (fst (execute s tx)) = modelUpdateCount s)
  \/ (model_ids (snd (execute s tx)) = [modelUpdateCount s + 1]
      /\ modelUpdateCount (fst (execute s tx)) = modelUpdateCount s + 1).
Proof. tx_cases tx; auto. Qed.

(** A transaction other than a sensor submission leaves the sensor counter
    alone, and what a sensor submission does depends on that counter only;
    likewise for the model updates. *)
Lemma execute_sensor_only s s' tx :
  sensorUploadCount s = sensorUploadCount s' ->
  (if is_sensor_submission tx
   then sensor_ids (snd (execute s tx)) = sensor_ids (snd (execute s' tx))
        /\ sensorUploadCount (fst (execute s tx))
           = sensorUploadCount (fst (execute s' tx))
   else sensor_ids (snd (execute s tx)) = []
        /\ sensorUploadCount (fst (execute s tx)) = sensorUploadCount s).
Proof.
  intros Heq. destruct tx as [env [m p t h|w|ids ctx|r c p|b e|r c p]];
    unfold is_sensor_submission; cbn [tx_call].
  1: { unfold execute, dispatch. cbn [tx_call tx_env].
       rewrite !submitEncryptedSensorData_eq, Heq.
       destruct (_ <=? _); cbn [fst snd]; auto. }
  all: call_cases; auto.
Qed.

Lemma execute_model_only s s' tx :
  modelUpdateCount s = modelUpdateCount s' ->
  (if is_model_submission tx
   then model_ids (snd (execute s tx)) = model_ids (snd (execute s' tx))
        /\ modelUpdateCount (fst (execute s tx))
           = modelUpdateCount (fst (execute s' tx))
   else model_ids (snd (execute s tx)) = []
        /\ modelUpdateCount (fst (execute s tx)) = modelUpdateCount s).
Proof.
  intros Heq. destruct tx as [env [m p t h|w|ids ctx|r c p|b e|r c p]];
    unfold is_model_submission; cbn [tx_call].
  2: { unfold execute, dispatch. cbn [tx_call tx_env].
       rewrite !submitEncryptedModelUpdate_eq, Heq.
       destruct (_ <=? _); cbn [fst snd]; auto. }
  all: call_cases; auto.
Qed.

Lemma run_sensor_only txs : forall s s',
  sensorUploadCount s = sensorUploadCount s' ->
  sensor_ids (snd (run s txs))
  = sensor_ids (snd (run s' (List.filter is_sensor_submission txs))).
Proof.
  induction txs as [|tx txs IH]; intros s s' Heq; [reflexivity|].
  pose proof (execute_sensor_only s s' tx Heq) as Hstep.
  cbn [List.filter]. destruct (is_sensor_submission tx).
  - rewrite !run_cons. cbn [snd]. rewrite !sensor_ids_app.
    destruct Hstep as [-> Hcount]. f_equal. by apply IH.
  - rewrite run_cons. cbn [snd]. rewrite sensor_ids_app.
    destruct Hstep as [-> Hcount]. cbn [app]. apply IH. congruence.
Qed.

Lemma run_model_only txs : forall s s',
  modelUpdateCount s = modelUpdateCount s' ->
  model_ids (snd (run s txs))
  = model_ids (snd (run s' (List.filter is_model_submission txs))).
Proof.
  induction txs as [|tx txs IH]; intros s s' Heq; [reflexivity|].
  pose proof (execute_model_only s s' tx Heq) as Hstep.
  cbn [List.filter]. destruct (is_model_submission tx).
  - rewrite !run_cons. cbn [snd]. rewrite !model_ids_app.
    destruct Hstep as [-> Hcount]. f_equal. by apply IH.
  - rewrite run_cons. cbn [snd]. rewrite model_ids_app.
    destruct Hstep as [-> Hcount]. cbn [app]. apply IH. congruence.
Qed.

Lemma seqZ_increasing m n : StronglySorted Z.lt (seqZ m n).
Proof.
  destruct (Z.le_gt_cases n 0) as [Hn|Hn].
  { rewrite seqZ_nil by lia. constructor. }
  rewrite <- (Z2Nat.id n) by lia. generalize (Z.to_nat n) as k. clear.
  intros k. revert m. induction k as [|k IH]; intros m.
  - rewrite seqZ_nil by lia. constructor.
  - rewrite seqZ_cons by lia. constructor.
    + replace (Z.pred (Z.of_nat (S k))) with (Z.of_nat k) by lia. apply IH.
    + apply Forall_forall. intros x Hx.
      apply elem_of_seqZ in Hx. lia.
Qed.

(** C7. In the log of any sequence of transactions from deployment, the
    ids announced by the sensor submissions are 1, 2, ..., n in this order,
    and so are those of the model updates: each sequence is strictly
    increasing and without repetition.  The sensor ids are those of the
    sensor submissions run alone, the model ids those of the model updates
    run alone: neither counter depends on any other transaction. *)
Theorem C7_ids_increasing_independent (txs : list Tx) :
  let sensors := sensor_ids (log_after txs) in
  let models := model_ids (log_after txs) in
  sensors = seqZ 1 (Z.of_nat (length sensors))
  /\ models = seqZ 1 (Z.of_nat (length models))
  /\ StronglySorted Z.lt sensors /\ NoDup sensors
  /\ StronglySorted Z.lt models /\ NoDup models
  /\ sensors = sensor_ids (log_after (List.filter is_sensor_submission txs))
  /\ models = model_ids (log_after (List.filter is_model_submission txs)).
Proof.
  intros sensors models.
  assert (Hs : sensors = seqZ 1 (Z.of_nat (length sensors))).
  { apply (registry_ids sensorUploadCount sensor_ids sensor_ids_app eq_refl
             execute_sensor_step txs deployed). }
  assert (Hm : models = seqZ 1 (Z.of_nat (length models))).
  { apply (registry_ids modelUpdateCount model_ids model_ids_app eq_refl
             execute_model_step txs deployed). }
  repeat apply conj; try assumption.
  - rewrite Hs. apply seqZ_increasing.
  - rewrite Hs. apply NoDup_seqZ.
  - rewrite Hm. apply seqZ_increasing.
  - rewrite Hm. apply NoDup_seqZ.
  - apply run_sensor_only. reflexivity.
  - apply run_model_only. reflexivity.
Qed.

(** ** Claims about requests and their resolution *)

(** C1 (as the contract has it). A callback never consumes the binding it
    checks.  After a successful call both request mappings are what they
    were, and through any later transactions, as long as the oracle does not
    hand out the same request id again, the binding stays in place: every
    later call for the same request id succeeds again, provided the oracle
    accepts its proof and its payload decodes.  A repeated
    [decryptAggregatedModel] again writes nothing; a repeated
    [decryptSuggestion] replaces the record of the bound beneficiary by the
    advice of the new payload.  No call fails because the request was
    resolved before. *)
Theorem C1_resolution_repeatable
    (callback : Selector) (s s' : Storage) (log : list Effect) (requestId : Z)
    (cleartexts proof : bytes) (later : list Tx)
    (cleartexts' proof' : bytes) (results : list string) :
  resolve callback requestId cleartexts proof s = Success tt s' log ->
  ~ In requestId (issued (snd (run s' later))) ->
  checkSignatures requestId cleartexts' proof' = true ->
  abi_decode cleartexts' = Some results ->
  let s2 := fst (run s' later) in
  requestToEntityId s' = requestToEntityId s
  /\ requestToContext s' = requestToContext s
  /\ binding callback s2 requestId = binding callback s requestId
  /\ binding callback s2 requestId <> 0
  /\ match callback with
     | decryptAggregatedModel_selector =>
         resolve callback requestId cleartexts' proof' s2
         = Success tt s2 [Emit (AggregationDecrypted 0)]
     | decryptSuggestion_selector =>
         let beneficiary := uint160 (binding callback s requestId) in
         exists s3,
           resolve callback requestId cleartexts' proof' s2
           = Success tt s3 [Emit (SuggestionDecrypted beneficiary)]
           /\ getSuggestion s3 beneficiary
              = (match results with first :: _ => first | [] => ""%string end,
                 false)
     end.
Proof.
  intros Hfirst Hfresh Hok Hdecode s2.
  rewrite resolve_eq in Hfirst.
  destruct (binding callback s requestId =? 0) eqn:Hbound; [discriminate|].
  destruct (checkSignatures requestId cleartexts proof); [|discriminate].
  destruct (abi_decode cleartexts) as [first|]; [|discriminate].
  assert (Hkeep : requestToEntityId s' = requestToEntityId s
                  /\ requestToContext s' = requestToContext s).
  { destruct callback; injection Hfirst as <- _; split; reflexivity. }
  destruct Hkeep as [Hentity Hcontext].
  assert (Hsame : binding callback s2 requestId = binding callback s requestId).
  { unfold s2. rewrite run_binding_frame by exact Hfresh.
    destruct callback; cbn [binding]; congruence. }
  split; [exact Hentity|]. split; [exact Hcontext|]. split; [exact Hsame|].
  split; [rewrite Hsame; by apply Z.eqb_neq|].
  rewrite resolve_eq, Hsame, Hbound, Hok, Hdecode.
  destruct callback; [reflexivity|].
  cbv zeta. eexists. split; [reflexivity|].
  unfold getSuggestion. cbn [set_suggestions suggestions].
  rewrite sload_insert_eq.
  cbn [DecryptedSuggestion.advice DecryptedSuggestion.applied].
  destruct results; reflexivity.
Qed.

(** C2 (as the contract has it). A successful [decryptAggregatedModel]
    writes nothing: the storage after the call is the storage before it, and
    the one effect of the call is the event [AggregationDecrypted(0)]. *)
Theorem C2_aggregate_resolution_writes_nothing
    (s s' : Storage) (log : list Effect) (requestId : Z) (cleartexts proof : bytes) :
  decryptAggregatedModel requestId cleartexts proof s = Success tt s' log ->
  s' = s /\ log = [Emit (AggregationDecrypted 0)].
Proof.
  rewrite decryptAggregatedModel_eq. intros Hcall.
  destruct (_ =? 0); [discriminate|].
  destruct (checkSignatures _ _ _); [|discriminate].
  destruct (abi_decode _); [|discriminate].
  injection Hcall as <- <-. split; reflexivity.
Qed.

(** The handle the aggregation loop reads for an id: the stored one, or
    zero when no model update has that id. *)
Lemma collect_ciphertexts_lookup updates updateIds :
  collect_ciphertexts updates updateIds
  = map (fun updateId =>
           match updates !! updateId with
           | Some u => EncryptedModelUpdate.encryptedWeightsHash u
           | None => 0
           end) updateIds.
Proof.
  induction updateIds as [|updateId rest IH]; [reflexivity|].
  cbn [collect_ciphertexts map]. rewrite IH. f_equal.
  unfold sload, FHE_toBytes32. destruct (updates !! updateId); reflexivity.
Qed.

(** When the library call returns, [requestAggregationDecryption] fails
    only on an empty batch, with ["empty"], and then stores nothing; on a
    non-empty batch an id without a record contributes the zero handle, the
    request is sent and its binding is stored. *)
Lemma requestAggregationDecryption_outcomes
    (env : Env) (updateIds : list Z) (context : Z) (s : Storage) :
  let tx := mkTx env (call_requestAggregationDecryption updateIds context) in
  let reqId := fhe_requestId env in
  (updateIds = [] <->
     requestAggregationDecryption env updateIds context s = Failure (Revert "empty"))
  /\ (updateIds = [] <-> execute s tx = (s, []))
  /\ (updateIds <> [] <->
        exists s',
          requestAggregationDecryption env updateIds context s
          = Success tt s'
              [RequestDecryption
                 (map (fun updateId =>
                         match modelUpdates s !! updateId with
                         | Some u => EncryptedModelUpdate.encryptedWeightsHash u
                         | None => 0
                         end) updateIds)
                 decryptAggregatedModel_selector reqId;
               Emit (AggregationDecryptionRequested reqId 0)]
          /\ sload 0 (requestToContext s') reqId = context
          /\ sload 0 (requestToEntityId s') reqId = 0).
Proof.
  intros tx reqId. unfold execute, tx, dispatch. cbn [tx_call tx_env].
  rewrite requestAggregationDecryption_eq, <- collect_ciphertexts_lookup.
  destruct updateIds as [|u rest]; cbv zeta.
  - split; [tauto|]. split; [tauto|].
    split; [congruence|]. intros (s' & Hcall & _). discriminate.
  - split; [split; discriminate|]. split; [split; discriminate|].
    split; [|discriminate]. intros _. eexists. split; [reflexivity|].
    cbn [set_requestToContext set_requestToEntityId requestToContext
         requestToEntityId].
    rewrite !sload_insert_eq. split; reflexivity.
Qed.

(** The aggregation request under the ACL, one equation. *)
Lemma requestAggregationDecryption_acl_eq acl_allowed env updateIds context s :
  WithAcl.requestAggregationDecryption acl_allowed env updateIds context s =
  match updateIds with
  | [] => Failure (Revert "empty")
  | _ :: _ =>
      let ciphertexts := collect_ciphertexts (modelUpdates s) updateIds in
      if forallb acl_allowed ciphertexts then
        let reqId := fhe_requestId env in
        Success tt
          (set_requestToContext reqId context (set_requestToEntityId reqId 0 s))
          [RequestDecryption ciphertexts decryptAggregatedModel_selector reqId;
           Emit (AggregationDecryptionRequested reqId 0)]
      else Failure SenderNotAllowed
  end.
Proof.
  unfold WithAcl.requestAggregationDecryption, WithAcl.FHE_requestDecryption.
  exec_simpl.
  destruct updateIds as [|u rest]; [reflexivity|].
  replace (0 <? Z.of_nat (length (u :: rest))) with true
    by (symmetry; apply Z.ltb_lt; simpl length; lia).
  cbv zeta.
  destruct (forallb acl_allowed (collect_ciphertexts (modelUpdates s) (u :: rest)));
    reflexivity.
Qed.

(** C3 (as the contract has it). [requestAggregationDecryption] fails with
    ["empty"] exactly when the batch is empty.  It makes no existence check
    of its own: an id without a record contributes the zero handle, and the
    outcome depends on the ids only through the handles collected.  A
    non-empty batch goes through exactly when the library accepts its
    handles (the ACL allows the contract on each of them), it fails with
    [SenderNotAllowed] otherwise, whether the ids name stored model updates
    or not; the binding is stored only when the call goes through, and a
    failed call leaves the storage as it was. *)
Theorem C3_aggregation_request_has_no_existence_check
    (acl_allowed : Z -> bool) (env : Env) (updateIds : list Z) (context : Z)
    (s : Storage) :
  let out := WithAcl.requestAggregationDecryption acl_allowed env updateIds context s in
  let reqId := fhe_requestId env in
  let ciphertexts :=
    map (fun updateId =>
           match modelUpdates s !! updateId with
           | Some u => EncryptedModelUpdate.encryptedWeightsHash u
           | None => 0
           end) updateIds in
  (updateIds = [] <-> out = Failure (Revert "empty"))
  /\ (updateIds <> [] /\ forallb acl_allowed ciphertexts = false <->
      out = Failure SenderNotAllowed)
  /\ (updateIds <> [] /\ forallb acl_allowed ciphertexts = true <->
      exists s',
        out = Success tt s'
                [RequestDecryption ciphertexts decryptAggregatedModel_selector reqId;
                 Emit (AggregationDecryptionRequested reqId 0)]
        /\ sload 0 (requestToContext s') reqId = context
        /\ sload 0 (requestToEntityId s') reqId = 0)
  /\ (forall f, out = Failure f ->
      WithAcl.execute_request acl_allowed env updateIds context s = (s, []))
  /\ (forallb acl_allowed ciphertexts = true ->
      out = requestAggregationDecryption env updateIds context s)
  /\ (forall otherIds,
        collect_ciphertexts (modelUpdates s) otherIds = ciphertexts ->
        WithAcl.requestAggregationDecryption acl_allowed env otherIds context s
        = out).
Proof.
  intros out reqId ciphertexts. unfold WithAcl.execute_request. fold out.
  assert (Hcts : collect_ciphertexts (modelUpdates s) updateIds = ciphertexts)
    by apply collect_ciphertexts_lookup.
  assert (Hout : out = match updateIds with
                       | [] => Failure (Revert "empty")
                       | _ :: _ =>
                           if forallb acl_allowed ciphertexts then
                             Success tt
                               (set_requestToContext reqId context
                                  (set_requestToEntityId reqId 0 s))
                               [RequestDecryption ciphertexts
                                  decryptAggregatedModel_selector reqId;
                                Emit (AggregationDecryptionRequested reqId 0)]
                           else Failure SenderNotAllowed
                       end).
  { unfold out. rewrite requestAggregationDecryption_acl_eq.
    destruct updateIds; [reflexivity|]. cbv zeta. rewrite Hcts. reflexivity. }
  split; [|split; [|split; [|split; [|split]]]].
  - rewrite Hout. destruct updateIds as [|u rest]; [tauto|].
    split; [discriminate|]. destruct (forallb acl_allowed ciphertexts); discriminate.
  - rewrite Hout. destruct updateIds as [|u rest].
    + split; [intros [Hne _]; congruence|discriminate].
    + destruct (forallb acl_allowed ciphertexts);
        (split; [intros [_ Hall]|intros Hfail]);
        first [discriminate | split; [discriminate|reflexivity] | reflexivity].
  - rewrite Hout. destruct updateIds as [|u rest].
    + split; [intros [Hne _]; congruence|].
      intros (s' & Hcall & _). discriminate.
    + destruct (forallb acl_allowed ciphertexts).
      * split; [|intros _; split; [discriminate|reflexivity]].
        intros _. eexists. split; [reflexivity|].
        cbn [set_requestToContext set_requestToEntityId requestToContext
             requestToEntityId].
        rewrite !sload_insert_eq. split; reflexivity.
      * split; [intros [_ Hall]; discriminate|].
        intros (s' & Hcall & _). discriminate.
  - intros f Hf. rewrite Hf. reflexivity.
  - intros Hall. rewrite Hout, requestAggregationDecryption_eq, Hcts, Hall.
    destruct updateIds; reflexivity.
  - intros otherIds Hsame. rewrite Hout, requestAggregationDecryption_acl_eq.
    assert (Hlen : length otherIds = length updateIds).
    { apply (f_equal (@length Z)) in Hsame.
      rewrite collect_ciphertexts_lookup in Hsame. unfold ciphertexts in Hsame.
      rewrite !length_map in Hsame. exact Hsame. }
    destruct otherIds as [|o os], updateIds as [|u us];
      try discriminate Hlen; [reflexivity|].
    cbv zeta. rewrite Hsame. reflexivity.
Qed.

(** C9. A request is bound for one callback only.  Once a transaction has
    issued request id [requestId], and for as long as the oracle does not hand out
    it again: if it was an aggregation request, [decryptSuggestion] reverts
    on it (entity key 0), and so does [decryptAggregatedModel] when the
    context was [bytes32(0)]; if it was a suggestion request,
    [decryptAggregatedModel] reverts on it (context 0), and so does
    [decryptSuggestion] when the beneficiary was [address(0)]. *)
Theorem C9_wrong_kind_callback_reverts
    (s : Storage) (tx : Tx) (later : list Tx) (requestId : Z) (cleartexts proof : bytes) :
  In requestId (issued (snd (execute s tx))) ->
  ~ In requestId (issued (snd (run (fst (execute s tx)) later))) ->
  let s' := fst (run (fst (execute s tx)) later) in
  match tx_call tx with
  | call_requestAggregationDecryption _ context =>
      decryptSuggestion requestId cleartexts proof s' = Failure (Revert "invalid")
      /\ (context = 0 ->
          decryptAggregatedModel requestId cleartexts proof s' = Failure (Revert "invalid"))
  | call_requestSuggestionDecryption beneficiary _ =>
      decryptAggregatedModel requestId cleartexts proof s' = Failure (Revert "invalid")
      /\ (uint160 beneficiary = 0 ->
          decryptSuggestion requestId cleartexts proof s' = Failure (Revert "invalid"))
  | _ => False
  end.
Proof.
  intros Hissued Hfresh s'.
  assert (Hkeep : forall callback,
            binding callback s' requestId = binding callback (fst (execute s tx)) requestId).
  { intros callback. apply run_binding_frame. exact Hfresh. }
  assert (Hrevert : forall callback,
            binding callback (fst (execute s tx)) requestId = 0 ->
            resolve callback requestId cleartexts proof s' = Failure (Revert "invalid")).
  { intros callback Hzero. rewrite resolve_eq, Hkeep, Hzero. reflexivity. }
  pose proof (Hrevert decryptSuggestion_selector) as Hsuggestion.
  pose proof (Hrevert decryptAggregatedModel_selector) as Haggregate.
  cbn [resolve binding] in Hsuggestion, Haggregate.
  set (outS := decryptSuggestion requestId cleartexts proof s') in *.
  set (outA := decryptAggregatedModel requestId cleartexts proof s') in *.
  clearbody outS outA s'. clear Hkeep Hfresh Hrevert.
  revert Hissued Hsuggestion Haggregate.
  tx_cases tx; cbn [issued flat_map app In]; intros Hissued Hsuggestion Haggregate;
    try tauto; destruct Hissued as [<-|[]];
    cbn [set_requestToContext set_requestToEntityId requestToContext
         requestToEntityId] in Hsuggestion, Haggregate;
    rewrite sload_insert_eq in Hsuggestion, Haggregate.
  - split; [apply Hsuggestion; reflexivity | exact Haggregate].
  - split; [apply Haggregate; reflexivity | exact Hsuggestion].
Qed.

(** ** Further properties of the registries *)

Lemma run_app txs1 : forall s txs2,
  run s (txs1 ++ txs2)
  = (fst (run (fst (run s txs1)) txs2),
     snd (run s txs1) ++ snd (run (fst (run s txs1)) txs2)).
Proof.
  induction txs1 as [|tx txs1 IH]; intros s txs2.
  - cbn [app run fst snd]. destruct (run s txs2); reflexivity.
  - rewrite <- app_comm_cons, !run_cons, IH. cbn [fst snd].
    rewrite app_assoc. reflexivity.
Qed.

Lemma state_after_app txs more :
  state_after (txs ++ more) = fst (run (state_after txs) more).
Proof. unfold state_after. rewrite run_app. reflexivity. Qed.

Lemma log_after_app txs more :
  log_after (txs ++ more) = log_after txs ++ snd (run (state_after txs) more).
Proof. unfold log_after, state_after. rewrite run_app. reflexivity. Qed.

(** What the two registries share: a transaction leaves counter and table
    alone, or the counter had room, went up by one, and the table received
    one record under the new counter value, carrying that value as its id. *)
Section Table.

Context {V : Type}.
Variable count : Storage -> Z.
Variable table : Storage -> gmap Z V.
Variable key_of : V -> Z.

Hypothesis step : forall s tx,
  (count (fst (execute s tx)) = count s /\ table (fst (execute s tx)) = table s)
  \/ (count s + 1 <= uint256_max
      /\ count (fst (execute s tx)) = count s + 1
      /\ exists v, table (fst (execute s tx)) = <[count s + 1 := v]> (table s)
                   /\ key_of v = count s + 1).

Lemma table_ok_execute s tx :
  table_ok count table key_of s -> table_ok count table key_of (fst (execute s tx)).
Proof.
  intros [Hrange Hkeys]. unfold table_ok.
  destruct (step s tx) as [[-> ->]|(Hroom & -> & v & -> & Hv)].
  - split; assumption.
  - split; [lia|]. intros k. specialize (Hkeys k).
    rewrite lookup_insert. case_decide as Hk.
    + subst k. split; [lia|exact Hv].
    + destruct (table s !! k); [destruct Hkeys; split; [lia|assumption]|lia].
Qed.

Lemma table_ok_run txs s :
  table_ok count table key_of s -> table_ok count table key_of (fst (run s txs)).
Proof. apply (run_invariant _ table_ok_execute). Qed.

(** A record in the table stays as it is. *)
Lemma table_keep_execute s tx k v :
  table_ok count table key_of s ->
  table s !! k = Some v -> table (fst (execute s tx)) !! k = Some v.
Proof.
  intros [_ Hkeys] Hk. specialize (Hkeys k). rewrite Hk in Hkeys.
  destruct (step s tx) as [[_ ->]|(_ & _ & v' & -> & _)]; [exact Hk|].
  rewrite lookup_insert_ne by lia. exact Hk.
Qed.

Lemma table_keep_run txs : forall s k v,
  table_ok count table key_of s ->
  table s !! k = Some v -> table (fst (run s txs)) !! k = Some v.
Proof.
  induction txs as [|tx txs IH]; intros s k v Hok Hk; [exact Hk|].
  rewrite run_cons. cbn [fst].
  apply IH; [apply table_ok_execute, Hok | apply table_keep_execute; assumption].
Qed.

(** The counter grows by at most one per transaction. *)
Lemma table_count_bound txs : forall s,
  count s <= count (fst (run s txs)) <= count s + Z.of_nat (length txs).
Proof.
  induction txs as [|tx txs IH]; intros s.
  - cbn [run fst length]. lia.
  - rewrite run_cons. cbn [fst length]. specialize (IH (fst (execute s tx))).
    destruct (step s tx) as [[Hc _]|(_ & Hc & _)]; rewrite Hc in IH; lia.
Qed.

End Table.

Lemma execute_sensor_table s tx :
  (sensorUploadCount (fst (execute s tx)) = sensorUploadCount s
   /\ sensorData (fst (execute s tx)) = sensorData s)
  \/ (sensorUploadCount s + 1 <= uint256_max
      /\ sensorUploadCount (fst (execute s tx)) = sensorUploadCount s + 1
      /\ exists v, sensorData (fst (execute s tx))
                   = <[sensorUploadCount s + 1 := v]> (sensorData s)
                   /\ EncryptedSensorData.id v = sensorUploadCount s + 1).
Proof.
  tx_cases tx; auto.
  right. split; [by apply Z.leb_le|]. split; [reflexivity|].
  eexists. split; reflexivity.
Qed.

Lemma execute_model_table s tx :
  (modelUpdateCount (fst (execute s tx)) = modelUpdateCount s
   /\ modelUpdates (fst (execute s tx)) = modelUpdates s)
  \/ (modelUpdateCount s + 1 <= uint256_max
      /\ modelUpdateCount (fst (execute s tx)) = modelUpdateCount s + 1
      /\ exists v, modelUpdates (fst (execute s tx))
                   = <[modelUpdateCount s + 1 := v]> (modelUpdates s)
                   /\ EncryptedModelUpdate.id v = modelUpdateCount s + 1).
Proof.
  tx_cases tx; auto.
  right. split; [by apply Z.leb_le|]. split; [reflexivity|].
  eexists. split; reflexivity.
Qed.

Lemma sensor_table_deployed :
  table_ok sensorUploadCount sensorData EncryptedSensorData.id deployed.
Proof.
  split; [cbn; unfold uint256_max; lia|].
  intros k. cbn [deployed sensorData sensorUploadCount].
  rewrite lookup_empty. lia.
Qed.

Lemma model_table_deployed :
  table_ok modelUpdateCount modelUpdates EncryptedModelUpdate.id deployed.
Proof.
  split; [cbn; unfold uint256_max; lia|].
  intros k. cbn [deployed modelUpdates modelUpdateCount].
  rewrite lookup_empty. lia.
Qed.

(** X1. After any sequence of transactions from deployment, the sensor
    counter is a [uint256] equal to the number of sensor ids announced,
    [sensorData] holds a record under each id from 1 to the counter, with
    that id in its [id] field, and reads as the zero record everywhere
    else. *)
Theorem X1_sensor_registry_contents (txs : list Tx) (k : Z) :
  let s := state_after txs in
  0 <= sensorUploadCount s <= uint256_max
  /\ sensorUploadCount s = Z.of_nat (length (sensor_ids (log_after txs)))
  /\ (1 <= k <= sensorUploadCount s <->
      exists record, sensorData s !! k = Some record
                     /\ EncryptedSensorData.id record = k)
  /\ (~ (1 <= k <= sensorUploadCount s) ->
      sload EncryptedSensorData.zero (sensorData s) k = EncryptedSensorData.zero).
Proof.
  intros s.
  destruct (table_ok_run _ _ _ execute_sensor_table txs deployed
              sensor_table_deployed) as [Hrange Hkeys].
  fold (state_after txs) in Hrange, Hkeys. fold s in Hrange, Hkeys.
  specialize (Hkeys k).
  split; [exact Hrange|]. split.
  { apply (registry_ids sensorUploadCount sensor_ids sensor_ids_app eq_refl
             execute_sensor_step txs deployed). }
  unfold sload. destruct (sensorData s !! k) as [record|].
  - destruct Hkeys as [Hin Hid]. split; [|intros Hout; contradiction].
    split; [intros _; exists record; split; [reflexivity|exact Hid]|].
    intros _. exact Hin.
  - split; [|reflexivity]. split; [intros Hin; contradiction|].
    intros (record & Hrecord & _). discriminate.
Qed.

(** X2. The same for the model updates: the counter is the number of ids
    announced, [modelUpdates] holds a record under each id from 1 to the
    counter, with that id in its [id] field, and reads as the zero record
    everywhere else. *)
Theorem X2_model_registry_contents (txs : list Tx) (k : Z) :
  let s := state_after txs in
  0 <= modelUpdateCount s <= uint256_max
  /\ modelUpdateCount s = Z.of_nat (length (model_ids (log_after txs)))
  /\ (1 <= k <= modelUpdateCount s <->
      exists record, modelUpdates s !! k = Some record
                     /\ EncryptedModelUpdate.id record = k)
  /\ (~ (1 <= k <= modelUpdateCount s) ->
      sload EncryptedModelUpdate.zero (modelUpdates s) k = EncryptedModelUpdate.zero).
Proof.
  intros s.
  destruct (table_ok_run _ _ _ execute_model_table txs deployed
              model_table_deployed) as [Hrange Hkeys].
  fold (state_after txs) in Hrange, Hkeys. fold s in Hrange, Hkeys.
  specialize (Hkeys k).
  split; [exact Hrange|]. split.
  { apply (registry_ids modelUpdateCount model_ids model_ids_app eq_refl
             execute_model_step txs deployed). }
  unfold sload. destruct (modelUpdates s !! k) as [record|].
  - destruct Hkeys as [Hin Hid]. split; [|intros Hout; contradiction].
    split; [intros _; exists record; split; [reflexivity|exact Hid]|].
    intros _. exact Hin.
  - split; [|reflexivity]. split; [intros Hin; contradiction|].
    intros (record & Hrecord & _). discriminate.
Qed.

(** X3. A stored sensor record is never changed: whatever transactions
    follow, the record found under an id is the one stored when the id was
    assigned. *)
Theorem X3_sensor_record_immutable
    (txs more : list Tx) (k : Z) (record : EncryptedSensorData.t) :
  sensorData (state_after txs) !! k = Some record ->
  sensorData (state_after (txs ++ more)) !! k = Some record.
Proof.
  intros Hk. rewrite state_after_app.
  apply (table_keep_run _ _ _ execute_sensor_table); [|exact Hk].
  apply (table_ok_run _ _ _ execute_sensor_table), sensor_table_deployed.
Qed.

(** X4. A stored model update is never changed by later transactions. *)
Theorem X4_model_record_immutable
    (txs more : list Tx) (k : Z) (record : EncryptedModelUpdate.t) :
  modelUpdates (state_after txs) !! k = Some record ->
  modelUpdates (state_after (txs ++ more)) !! k = Some record.
Proof.
  intros Hk. rewrite state_after_app.
  apply (table_keep_run _ _ _ execute_model_table); [|exact Hk].
  apply (table_ok_run _ _ _ execute_model_table), model_table_deployed.
Qed.

Lemma after_snoc txs tx :
  state_after (txs ++ [tx]) = fst (execute (state_after txs) tx)
  /\ log_after (txs ++ [tx]) = log_after txs ++ snd (execute (state_after txs) tx).
Proof.
  rewrite state_after_app, log_after_app. cbn [run].
  destruct (execute (state_after txs) tx) as [s1 log1]. cbn [fst snd].
  rewrite app_nil_r. split; reflexivity.
Qed.

(** Reading a field of a storage written by the setters. *)
Ltac storage_simpl_in H :=
  cbn [set_sensorUploadCount set_sensorData set_modelUpdates set_suggestions
       set_modelUpdateCount set_requestToEntityId set_requestToContext
       sensorUploadCount sensorData modelUpdates suggestions modelUpdateCount
       requestToEntityId requestToContext] in H.

Ltac storage_simpl :=
  cbn [set_sensorUploadCount set_sensorData set_modelUpdates set_suggestions
       set_modelUpdateCount set_requestToEntityId set_requestToContext
       sensorUploadCount sensorData modelUpdates suggestions modelUpdateCount
       requestToEntityId requestToContext].

(** Events of a list that evaluates to its elements. *)
Ltac no_such_event H :=
  cbn [In] in H;
  repeat (destruct H as [H|H]; try discriminate H);
  try contradiction.

(** A transaction announces a sensor submission exactly when it stores a
    record under an id that had none, with the announced uploader and
    timestamp. *)
Lemma execute_sensor_event s tx id uploader timestamp :
  table_ok sensorUploadCount sensorData EncryptedSensorData.id s ->
  In (Emit (SensorDataSubmitted id uploader timestamp)) (snd (execute s tx))
  <-> sensorData s !! id = None
      /\ exists record,
           sensorData (fst (execute s tx)) !! id = Some record
           /\ EncryptedSensorData.uploader record = uploader
           /\ EncryptedSensorData.timestamp record = timestamp.
Proof.
  intros [_ Hkeys].
  tx_cases tx;
    (split; [intros Hin | intros (Hnone & record & Hsome & Hu & Ht)]);
    try (no_such_event Hin; fail);
    try (storage_simpl_in Hsome; congruence).
  - cbn [In] in Hin. destruct Hin as [[= <- <- <-]|[]].
    specialize (Hkeys (sensorUploadCount s + 1)).
    split.
    + destruct (sensorData s !! (sensorUploadCount s + 1)); [lia|reflexivity].
    + eexists. cbn [set_sensorData set_sensorUploadCount sensorData].
      rewrite lookup_insert_eq. split; [reflexivity|]. split; reflexivity.
  - cbn [set_sensorData set_sensorUploadCount sensorData] in Hsome.
    rewrite lookup_insert in Hsome. case_decide as Hid; [|congruence].
    injection Hsome as <-. cbn in Hu, Ht. subst. left. reflexivity.
Qed.

Lemma execute_model_event s tx id contributor timestamp :
  table_ok modelUpdateCount modelUpdates EncryptedModelUpdate.id s ->
  In (Emit (ModelUpdateSubmitted id contributor timestamp)) (snd (execute s tx))
  <-> modelUpdates s !! id = None
      /\ exists record,
           modelUpdates (fst (execute s tx)) !! id = Some record
           /\ EncryptedModelUpdate.contributor record = contributor
           /\ EncryptedModelUpdate.timestamp record = timestamp.
Proof.
  intros [_ Hkeys].
  tx_cases tx;
    (split; [intros Hin | intros (Hnone & record & Hsome & Hu & Ht)]);
    try (no_such_event Hin; fail);
    try (storage_simpl_in Hsome; congruence).
  - cbn [In] in Hin. destruct Hin as [[= <- <- <-]|[]].
    specialize (Hkeys (modelUpdateCount s + 1)).
    split.
    + destruct (modelUpdates s !! (modelUpdateCount s + 1)); [lia|reflexivity].
    + eexists. cbn [set_modelUpdates set_modelUpdateCount modelUpdates].
      rewrite lookup_insert_eq. split; [reflexivity|]. split; reflexivity.
  - cbn [set_modelUpdates set_modelUpdateCount modelUpdates] in Hsome.
    rewrite lookup_insert in Hsome. case_decide as Hid; [|congruence].
    injection Hsome as <-. cbn in Hu, Ht. subst. left. reflexivity.
Qed.

(** X5. The log and the sensor table agree: [SensorDataSubmitted(id,
    uploader, timestamp)] was emitted if and only if [sensorData[id]] holds
    a record with that uploader and that timestamp. *)
Theorem X5_sensor_events_match_records
    (txs : list Tx) (id uploader timestamp : Z) :
  In (Emit (SensorDataSubmitted id uploader timestamp)) (log_after txs)
  <-> exists record,
        sensorData (state_after txs) !! id = Some record
        /\ EncryptedSensorData.uploader record = uploader
        /\ EncryptedSensorData.timestamp record = timestamp.
Proof.
  induction txs as [|tx txs IH] using rev_ind.
  - cbn. split; [intros []|]. intros (record & Hrecord & _).
    rewrite lookup_empty in Hrecord. discriminate.
  - destruct (after_snoc txs tx) as [-> ->].
    assert (Hok : table_ok sensorUploadCount sensorData EncryptedSensorData.id
                    (state_after txs)).
    { apply (table_ok_run _ _ _ execute_sensor_table), sensor_table_deployed. }
    rewrite in_app_iff, IH, (execute_sensor_event _ _ _ _ _ Hok).
    split.
    + intros [(record & Hrecord & Hfields)|(_ & Hnew)]; [|exact Hnew].
      exists record. split; [|exact Hfields].
      apply (table_keep_execute _ _ _ execute_sensor_table); assumption.
    + intros (record & Hrecord & Hfields).
      destruct (sensorData (state_after txs) !! id) as [old|] eqn:Hold.
      * left. exists old. split; [reflexivity|].
        apply (table_keep_execute _ _ _ execute_sensor_table _ tx) in Hold;
          [|exact Hok].
        congruence.
      * right. split; [reflexivity|]. exists record. split; assumption.
Qed.

(** X6. The log and the model table agree: [ModelUpdateSubmitted(id,
    contributor, timestamp)] was emitted if and only if [modelUpdates[id]]
    holds a record with that contributor and that timestamp. *)
Theorem X6_model_events_match_records
    (txs : list Tx) (id contributor timestamp : Z) :
  In (Emit (ModelUpdateSubmitted id contributor timestamp)) (log_after txs)
  <-> exists record,
        modelUpdates (state_after txs) !! id = Some record
        /\ EncryptedModelUpdate.contributor record = contributor
        /\ EncryptedModelUpdate.timestamp record = timestamp.
Proof.
  induction txs as [|tx txs IH] using rev_ind.
  - cbn. split; [intros []|]. intros (record & Hrecord & _).
    rewrite lookup_empty in Hrecord. discriminate.
  - destruct (after_snoc txs tx) as [-> ->].
    assert (Hok : table_ok modelUpdateCount modelUpdates EncryptedModelUpdate.id
                    (state_after txs)).
    { apply (table_ok_run _ _ _ execute_model_table), model_table_deployed. }
    rewrite in_app_iff, IH, (execute_model_event _ _ _ _ _ Hok).
    split.
    + intros [(record & Hrecord & Hfields)|(_ & Hnew)]; [|exact Hnew].
      exists record. split; [|exact Hfields].
      apply (table_keep_execute _ _ _ execute_model_table); assumption.
    + intros (record & Hrecord & Hfields).
      destruct (modelUpdates (state_after txs) !! id) as [old|] eqn:Hold.
      * left. exists old. split; [reflexivity|].
        apply (table_keep_execute _ _ _ execute_model_table _ tx) in Hold;
          [|exact Hok].
        congruence.
      * right. split; [reflexivity|]. exists record. split; assumption.
Qed.

(** X7. A submission has no precondition but room in its counter, and the
    counters cannot run out within [2^256 - 1] transactions: after fewer
    transactions than that, both submissions succeed and announce the next
    id. *)
Theorem X7_submissions_succeed
    (txs : list Tx) (env : Env) (m p t h w : Z) :
  Z.of_nat (length txs) < uint256_max ->
  let s := state_after txs in
  (exists s',
     submitEncryptedSensorData env m p t h s
     = Success tt s' [Emit (SensorDataSubmitted (sensorUploadCount s + 1)
                              (msg_sender env) (block_timestamp env))])
  /\ (exists s',
        submitEncryptedModelUpdate env w s
        = Success tt s' [Emit (ModelUpdateSubmitted (modelUpdateCount s + 1)
                                 (msg_sender env) (block_timestamp env))]).
Proof.
  intros Hshort s.
  pose proof (table_count_bound _ _ _ execute_sensor_table txs deployed) as Hs.
  pose proof (table_count_bound _ _ _ execute_model_table txs deployed) as Hm.
  fold (state_after txs) in Hs, Hm. fold s in Hs, Hm.
  cbn [deployed sensorUploadCount modelUpdateCount] in Hs, Hm.
  rewrite submitEncryptedSensorData_eq, submitEncryptedModelUpdate_eq.
  replace (sensorUploadCount s + 1 <=? uint256_max) with true
    by (symmetry; apply Z.leb_le; lia).
  replace (modelUpdateCount s + 1 <=? uint256_max) with true
    by (symmetry; apply Z.leb_le; lia).
  split; eexists; reflexivity.
Qed.

(** X8. The only way a submission fails is the overflow of its counter: it
    fails, with Panic(0x11), exactly when the counter is at the [uint256]
    maximum, and the transaction then changes nothing. *)
Theorem X8_submission_fails_on_overflow_only
    (env : Env) (m p t h w : Z) (s : Storage) (f : Fault) :
  (submitEncryptedSensorData env m p t h s = Failure f
   <-> uint256_max < sensorUploadCount s + 1 /\ f = Panic 17)
  /\ (submitEncryptedModelUpdate env w s = Failure f
      <-> uint256_max < modelUpdateCount s + 1 /\ f = Panic 17)
  /\ (uint256_max < sensorUploadCount s + 1 ->
      execute s (mkTx env (call_submitEncryptedSensorData m p t h)) = (s, []))
  /\ (uint256_max < modelUpdateCount s + 1 ->
      execute s (mkTx env (call_submitEncryptedModelUpdate w)) = (s, [])).
Proof.
  unfold execute, dispatch. cbn [tx_call tx_env].
  rewrite submitEncryptedSensorData_eq, submitEncryptedModelUpdate_eq.
  split; [|split; [|split]].
  - destruct (Z.leb_spec (sensorUploadCount s + 1) uint256_max) as [Hle|Hgt];
      cbv zeta; split.
    + discriminate.
    + intros [Hlt _]. lia.
    + intros [= <-]. split; [exact Hgt|reflexivity].
    + intros [_ ->]. reflexivity.
  - destruct (Z.leb_spec (modelUpdateCount s + 1) uint256_max) as [Hle|Hgt];
      cbv zeta; split.
    + discriminate.
    + intros [Hlt _]. lia.
    + intros [= <-]. split; [exact Hgt|reflexivity].
    + intros [_ ->]. reflexivity.
  - intros Hlt.
    destruct (Z.leb_spec (sensorUploadCount s + 1) uint256_max); [lia|reflexivity].
  - intros Hlt.
    destruct (Z.leb_spec (modelUpdateCount s + 1) uint256_max); [lia|reflexivity].
Qed.






(** X10. What each function writes.  A sensor submission touches only the
    sensor counter and table, a model submission only the model counter and
    table; a request writes only the two request mappings; a successful
    [decryptAggregatedModel] leaves the storage as it is and a
    [decryptSuggestion] writes only [suggestions]. *)
Theorem X10_write_sets (s : Storage) (tx : Tx) :
  let s' := fst (execute s tx) in
  match tx_call tx with
  | call_submitEncryptedSensorData _ _ _ _ =>
      modelUpdateCount s' = modelUpdateCount s
      /\ modelUpdates s' = modelUpdates s
      /\ suggestions s' = suggestions s
      /\ requestToEntityId s' = requestToEntityId s
      /\ requestToContext s' = requestToContext s
  | call_submitEncryptedModelUpdate _ =>
      sensorUploadCount s' = sensorUploadCount s
      /\ sensorData s' = sensorData s
      /\ suggestions s' = suggestions s
      /\ requestToEntityId s' = requestToEntityId s
      /\ requestToContext s' = requestToContext s
  | call_requestAggregationDecryption _ _
  | call_requestSuggestionDecryption _ _ =>
      sensorUploadCount s' = sensorUploadCount s
      /\ sensorData s' = sensorData s
      /\ modelUpdateCount s' = modelUpdateCount s
      /\ modelUpdates s' = modelUpdates s
      /\ suggestions s' = suggestions s
  | call_decryptAggregatedModel _ _ _ => s' = s
  | call_decryptSuggestion _ _ _ =>
      sensorUploadCount s' = sensorUploadCount s
      /\ sensorData s' = sensorData s
      /\ modelUpdateCount s' = modelUpdateCount s
      /\ modelUpdates s' = modelUpdates s
      /\ requestToEntityId s' = requestToEntityId s
      /\ requestToContext s' = requestToContext s
  end.
Proof. tx_cases tx; repeat split; reflexivity. Qed.

(** ** Further properties of requests and callbacks *)

Lemma sload_insert {V} (zero : V) (m : gmap Z V) k k' v :
  sload zero (<[k := v]> m) k' = if decide (k = k') then v else sload zero m k'.
Proof.
  case_decide as Hk; [subst; apply sload_insert_eq | by apply sload_insert_ne].
Qed.

Lemma uint160_range v : 0 <= uint160 v < 2 ^ 160.
Proof. unfold uint160. apply Z.mod_pos_bound. lia. Qed.

Lemma uint160_address v : 0 <= v < 2 ^ 160 -> uint160 v = v.
Proof. intros Hv. unfold uint160. apply Z.mod_small. exact Hv. Qed.

(** The entity keys stored are addresses, and the beneficiaries with a
    suggestion are non-zero addresses. *)
Lemma execute_address_keys s tx :
  (forall r, 0 <= sload 0 (requestToEntityId s) r < 2 ^ 160) ->
  (forall b sg, suggestions s !! b = Some sg -> 0 < b < 2 ^ 160) ->
  (forall r, 0 <= sload 0 (requestToEntityId (fst (execute s tx))) r < 2 ^ 160)
  /\ (forall b sg, suggestions (fst (execute s tx)) !! b = Some sg ->
        0 < b < 2 ^ 160).
Proof.
  intros Hkeys Hsugg.
  tx_cases tx; storage_simpl; try (split; assumption).
  - split; [|assumption]. intros r. rewrite sload_insert.
    case_decide; [lia|apply Hkeys].
  - split; [|assumption]. intros r. rewrite sload_insert.
    case_decide; [apply uint160_range|apply Hkeys].
  - split; [assumption|]. intros b' sg. rewrite lookup_insert.
    case_decide as Hb; [|apply Hsugg]. intros _. subst b'.
    apply Z.eqb_neq in Heqb.
    rewrite uint160_address by apply Hkeys.
    specialize (Hkeys r). lia.
Qed.

(** X11. After any sequence of transactions from deployment, every stored
    entity key is a 160-bit value and every beneficiary with a stored
    suggestion is a non-zero address; [getSuggestion(address(0))] returns
    the empty advice and [false]. *)
Theorem X11_suggestions_are_for_nonzero_addresses (txs : list Tx) :
  (forall requestId,
     0 <= sload 0 (requestToEntityId (state_after txs)) requestId < 2 ^ 160)
  /\ (forall beneficiary sg,
        suggestions (state_after txs) !! beneficiary = Some sg ->
        0 < beneficiary < 2 ^ 160)
  /\ getSuggestion (state_after txs) 0 = (""%string, false).
Proof.
  assert (Hinv : (forall r, 0 <= sload 0 (requestToEntityId (state_after txs)) r
                            < 2 ^ 160)
                 /\ (forall b sg, suggestions (state_after txs) !! b = Some sg ->
                       0 < b < 2 ^ 160)).
  { unfold state_after.
    apply (run_invariant
             (fun s => (forall r, 0 <= sload 0 (requestToEntityId s) r < 2 ^ 160)
                       /\ (forall b sg, suggestions s !! b = Some sg ->
                             0 < b < 2 ^ 160))).
    - intros s tx [Hkeys Hsugg]. by apply execute_address_keys.
    - split.
      + intros r. cbn [deployed requestToEntityId]. rewrite sload_empty. lia.
      + intros b sg. cbn [deployed suggestions]. by rewrite lookup_empty. }
  destruct Hinv as [Hkeys Hsugg].
  split; [exact Hkeys|]. split; [exact Hsugg|].
  unfold getSuggestion, sload.
  destruct (suggestions (state_after txs) !! 0) as [sg|] eqn:Hzero;
    [|reflexivity].
  apply Hsugg in Hzero. lia.
Qed.

(** X12. The outcomes of a callback.  It reverts with ["invalid"] exactly
    when the binding it checks is zero; otherwise it fails on the proof
    exactly when the oracle rejects it; otherwise it fails on the payload
    exactly when the bytes do not decode; otherwise it succeeds.  Every
    failed call is rolled back: storage and log are as before. *)
Theorem X12_callback_outcomes
    (callback : Selector) (requestId : Z) (cleartexts proof : bytes)
    (s : Storage) (env : Env) :
  let out := resolve callback requestId cleartexts proof s in
  (out = Failure (Revert "invalid") <-> binding callback s requestId = 0)
  /\ (out = Failure InvalidSignatures <->
      binding callback s requestId <> 0
      /\ checkSignatures requestId cleartexts proof = false)
  /\ (out = Failure DecodeFailure <->
      binding callback s requestId <> 0
      /\ checkSignatures requestId cleartexts proof = true
      /\ abi_decode cleartexts = None)
  /\ ((exists s' log, out = Success tt s' log) <->
      binding callback s requestId <> 0
      /\ checkSignatures requestId cleartexts proof = true
      /\ abi_decode cleartexts <> None)
  /\ (forall f, out = Failure f ->
      execute s (mkTx env (call_resolve callback requestId cleartexts proof))
      = (s, [])).
Proof.
  intros out. unfold execute. rewrite dispatch_resolve. fold out.
  unfold out. clear out. rewrite resolve_eq.
  destruct (Z.eqb_spec (binding callback s requestId) 0) as [Hzero|Hbound];
    [|destruct (checkSignatures requestId cleartexts proof);
      [destruct (abi_decode cleartexts) as [results|]; [destruct callback|]|]];
    cbv zeta;
    (split; [|split; [|split; [|split]]]);
    try (intros f Hf; first [reflexivity | discriminate Hf]);
    (split; [intros Hout | intros Hcond]);
    try discriminate Hout; try tauto; try reflexivity;
    try (destruct Hout as (s' & log & Hout); discriminate Hout);
    try (destruct Hcond as (? & ? & ?); congruence);
    try (destruct Hcond as (? & ?); congruence);
    try (repeat split; congruence);
    try (eexists; eexists; reflexivity).
Qed.



(** A non-zero entity key was written by a suggestion request that is in
    the log, and a stored suggestion by a resolution that is in the log, for
    a beneficiary some request in the log named. *)
Lemma execute_requested s tx (log : list Effect) :
  (forall r, sload 0 (requestToEntityId s) r <> 0 ->
     exists b, In (Emit (SuggestionDecryptionRequested r b)) log
               /\ uint160 b = sload 0 (requestToEntityId s) r) ->
  (forall b sg, suggestions s !! b = Some sg ->
     In (Emit (SuggestionDecrypted b)) log
     /\ exists r b', In (Emit (SuggestionDecryptionRequested r b')) log
                     /\ uint160 b' = b) ->
  let s' := fst (execute s tx) in
  let log' := log ++ snd (execute s tx) in
  (forall r, sload 0 (requestToEntityId s') r <> 0 ->
     exists b, In (Emit (SuggestionDecryptionRequested r b)) log'
               /\ uint160 b = sload 0 (requestToEntityId s') r)
  /\ (forall b sg, suggestions s' !! b = Some sg ->
        In (Emit (SuggestionDecrypted b)) log'
        /\ exists r b', In (Emit (SuggestionDecryptionRequested r b')) log'
                        /\ uint160 b' = b).
Proof.
  intros Hkeys Hsugg s' log'.
  assert (Hkeys' : forall r, sload 0 (requestToEntityId s) r <> 0 ->
            exists b, In (Emit (SuggestionDecryptionRequested r b)) log'
                      /\ uint160 b = sload 0 (requestToEntityId s) r).
  { intros r Hr. destruct (Hkeys r Hr) as (b & Hin & Hb).
    exists b. split; [apply in_app_iff; left; exact Hin|exact Hb]. }
  assert (Hsugg' : forall b sg, suggestions s !! b = Some sg ->
            In (Emit (SuggestionDecrypted b)) log'
            /\ exists r b', In (Emit (SuggestionDecryptionRequested r b')) log'
                            /\ uint160 b' = b).
  { intros b sg Hb. destruct (Hsugg b sg Hb) as (Hin & r & b' & Hreq & Hb').
    split; [apply in_app_iff; left; exact Hin|].
    exists r, b'. split; [apply in_app_iff; left; exact Hreq|exact Hb']. }
  clear Hkeys Hsugg. revert Hkeys' Hsugg'. unfold s', log'. clear s' log'.
  tx_cases tx; storage_simpl; intros Hkeys Hsugg; try (split; assumption).
  - split; [|assumption]. intros r'. rewrite sload_insert.
    case_decide; [congruence|apply Hkeys].
  - split; [|assumption]. intros r'. rewrite sload_insert.
    case_decide as Hr; [|apply Hkeys]. intros _. subst r'.
    exists b. split; [|reflexivity].
    apply in_app_iff. right. right. left. reflexivity.
  - split; [assumption|]. intros b' sg. rewrite lookup_insert.
    case_decide as Hb; [|apply Hsugg]. intros _. subst b'.
    split; [apply in_app_iff; right; left; reflexivity|].
    apply Z.eqb_neq in Heqb. destruct (Hkeys r Heqb) as (b0 & Hin & Hb0).
    exists r, b0. split; [exact Hin|].
    rewrite <- Hb0. unfold uint160. symmetry. apply Z.mod_mod. lia.
Qed.

(** X15. No suggestion without a request: if a suggestion is stored for a
    beneficiary, the log holds its [SuggestionDecrypted] event and a
    [SuggestionDecryptionRequested] event that named this beneficiary. *)
Theorem X15_suggestion_implies_request
    (txs : list Tx) (beneficiary : Z) (sg : DecryptedSuggestion.t) :
  suggestions (state_after txs) !! beneficiary = Some sg ->
  In (Emit (SuggestionDecrypted beneficiary)) (log_after txs)
  /\ exists requestId requested,
       In (Emit (SuggestionDecryptionRequested requestId requested)) (log_after txs)
       /\ uint160 requested = beneficiary.
Proof.
  revert beneficiary sg.
  assert (Hinv :
    (forall r, sload 0 (requestToEntityId (state_after txs)) r <> 0 ->
       exists b, In (Emit (SuggestionDecryptionRequested r b)) (log_after txs)
                 /\ uint160 b = sload 0 (requestToEntityId (state_after txs)) r)
    /\ (forall b sg, suggestions (state_after txs) !! b = Some sg ->
          In (Emit (SuggestionDecrypted b)) (log_after txs)
          /\ exists r b', In (Emit (SuggestionDecryptionRequested r b'))
                            (log_after txs)
                          /\ uint160 b' = b)).
  { induction txs as [|tx txs IH] using rev_ind.
    - split.
      + intros r. cbn. rewrite sload_empty. congruence.
      + intros b sg. cbn. rewrite lookup_empty. discriminate.
    - destruct (after_snoc txs tx) as [-> ->]. destruct IH as [IHkeys IHsugg].
      apply execute_requested; assumption. }
  apply Hinv.
Qed.

(** X16. A resolved suggestion stays readable until the next resolution
    for the same beneficiary: after a successful [decryptSuggestion] and
    through any later transactions that emit no [SuggestionDecrypted] for
    that beneficiary, [getSuggestion] keeps returning the advice of that
    payload (its first element, the empty string for the empty list) with
    [false]. *)
Theorem X16_advice_persists_until_next_resolution
    (s : Storage) (env : Env) (requestId : Z) (cleartexts proof : bytes)
    (results : list string) (later : list Tx) :
  sload 0 (requestToEntityId s) requestId <> 0 ->
  checkSignatures requestId cleartexts proof = true ->
  abi_decode cleartexts = Some results ->
  let beneficiary := uint160 (sload 0 (requestToEntityId s) requestId) in
  let s1 := fst (execute s (mkTx env (call_decryptSuggestion requestId
                                        cleartexts proof))) in
  ~ In (Emit (SuggestionDecrypted beneficiary)) (snd (run s1 later)) ->
  getSuggestion (fst (run s1 later)) beneficiary
  = (match results with first :: _ => first | [] => ""%string end, false).
Proof.
  intros Hkey Hok Hdecode beneficiary s1 Hquiet.
  unfold getSuggestion, sload.
  rewrite run_suggestions_frame by exact Hquiet.
  unfold s1, execute, dispatch. cbn [tx_call tx_env].
  rewrite decryptSuggestion_eq. cbv zeta.
  apply Z.eqb_neq in Hkey. rewrite Hkey, Hok, Hdecode. cbn [fst].
  storage_simpl. fold beneficiary. rewrite lookup_insert_eq. cbn [default].
  cbn [DecryptedSuggestion.advice DecryptedSuggestion.applied].
  destruct results; reflexivity.
Qed.

End Properties.

(** * The claims on the deployment of [Scenario] *)

Module Evaluation.

Import Scenario.

Abbreviation decryptSuggestion' := (decryptSuggestion test_checkSignatures Abi.decode).
Abbreviation decryptAggregatedModel' :=
  (decryptAggregatedModel test_checkSignatures Abi.decode).
Abbreviation resolve' := (resolve test_checkSignatures Abi.decode).
Abbreviation execute' := (execute test_checkSignatures Abi.decode).
Abbreviation run' := (run test_checkSignatures Abi.decode).
Abbreviation state_after' := (state_after test_checkSignatures Abi.decode).
Abbreviation log_after' := (log_after test_checkSignatures Abi.decode).

(** Membership in a list that evaluates. *)
Ltac absent :=
  vm_compute; intros Hin; repeat destruct Hin as [Hin|Hin];
  first [discriminate Hin | contradiction].

(** The decoder on the payloads of the scenario, and on bytes that are not
    the encoding of a [string[]]. *)
Example decode_advice :
  Abi.decode advice_payload = Some ["Increase irrigation by 10%"%string].
Proof. vm_compute. reflexivity. Qed.

Example decode_empty_list : Abi.decode empty_payload = Some [].
Proof. vm_compute. reflexivity. Qed.

Example decode_no_bytes : Abi.decode [] = None.
Proof. reflexivity. Qed.

Example decode_truncated : Abi.decode (Abi.word 32) = None.
Proof. vm_compute. reflexivity. Qed.

(** The log of the scenario, and the reading of [bob]'s suggestion once the
    oracle has answered. *)
Example history_log :
  log_after' history =
  [ Emit (SensorDataSubmitted 1 alice 1001);
    Emit (ModelUpdateSubmitted 1 bob 1002);
    Emit (SensorDataSubmitted 2 bob 1003);
    Emit (ModelUpdateSubmitted 2 alice 1004);
    Emit (SensorDataSubmitted 3 alice 1005);
    RequestDecryption [0xe1; 0xe2] decryptAggregatedModel_selector 8;
    Emit (AggregationDecryptionRequested 8 0);
    RequestDecryption [0x5e] decryptSuggestion_selector 7;
    Emit (SuggestionDecryptionRequested 7 bob) ].
Proof. vm_compute. reflexivity. Qed.

Example bob_reads_his_advice :
  getSuggestion resolved_once bob = ("Increase irrigation by 10%"%string, false).
Proof. vm_compute. reflexivity. Qed.

(** Bytes that do not decode make the call revert, even with an accepted
    proof; the transaction is rolled back. *)
Example undecodable_payload_reverts :
  decryptSuggestion' 7 [] good_proof requested = Failure DecodeFailure
  /\ execute' requested (resolves_suggestion [] good_proof) = (requested, []).
Proof. split; vm_compute; reflexivity. Qed.

(** C1 fails on the contract: request 7 is resolved by [decryptSuggestion],
    and the same call with another payload is accepted again and replaces
    [bob]'s advice; request 8 is resolved twice by [decryptAggregatedModel]. *)
Lemma C1_resolved_twice :
  decryptSuggestion' 7 advice_payload good_proof requested
    = Success tt resolved_once [Emit (SuggestionDecrypted bob)]
  /\ getSuggestion resolved_once bob = ("Increase irrigation by 10%"%string, false)
  /\ (exists s3,
        decryptSuggestion' 7 second_payload good_proof resolved_once
          = Success tt s3 [Emit (SuggestionDecrypted bob)]
        /\ getSuggestion s3 bob = ("Reduce nitrogen"%string, false))
  /\ decryptAggregatedModel' 8 summary_payload good_proof requested
       = Success tt requested [Emit (AggregationDecrypted 0)]
  /\ decryptAggregatedModel' 8 summary_payload good_proof
       (fst (execute' requested (resolves_aggregation summary_payload good_proof)))
       = Success tt requested [Emit (AggregationDecrypted 0)].
Proof.
  split; [vm_compute; reflexivity|].
  split; [vm_compute; reflexivity|].
  split; [eexists; split; vm_compute; reflexivity|].
  split; vm_compute; reflexivity.
Qed.

Lemma C1_resolution_repeatable_witness :
  resolve' decryptSuggestion_selector 7 advice_payload good_proof requested
    = Success tt resolved_once [Emit (SuggestionDecrypted bob)]
  /\ ~ In 7 (issued (snd (run' resolved_once
                            [requests_aggregation_without_context;
                             resolves_aggregation summary_payload good_proof])))
  /\ test_checkSignatures 7 second_payload good_proof = true
  /\ Abi.decode second_payload = Some ["Reduce nitrogen"%string]
  /\ exists s3,
       resolve' decryptSuggestion_selector 7 second_payload good_proof
         (fst (run' resolved_once
                 [requests_aggregation_without_context;
                  resolves_aggregation summary_payload good_proof]))
       = Success tt s3 [Emit (SuggestionDecrypted bob)]
       /\ getSuggestion s3 bob = ("Reduce nitrogen"%string, false).
Proof.
  assert (H1 : resolve' decryptSuggestion_selector 7 advice_payload good_proof requested
               = Success tt resolved_once [Emit (SuggestionDecrypted bob)])
    by (vm_compute; reflexivity).
  assert (H0 : ~ In 7 (issued (snd (run' resolved_once
                            [requests_aggregation_without_context;
                             resolves_aggregation summary_payload good_proof]))))
    by absent.
  assert (H2 : test_checkSignatures 7 second_payload good_proof = true)
    by reflexivity.
  assert (H3 : Abi.decode second_payload = Some ["Reduce nitrogen"%string])
    by (vm_compute; reflexivity).
  split; [exact H1|]. split; [exact H0|]. split; [exact H2|]. split; [exact H3|].
  exact (proj2 (proj2 (proj2 (proj2
           (C1_resolution_repeatable test_checkSignatures Abi.decode
              decryptSuggestion_selector requested resolved_once _ 7
              advice_payload good_proof
              [requests_aggregation_without_context;
               resolves_aggregation summary_payload good_proof]
              second_payload good_proof _ H1 H0 H2 H3))))).
Defined.

(** C2 fails on the contract: the aggregation request 8 is resolved, and the
    storage after the call is the storage before it -- no slot was written,
    so none went from unset to set. *)
Lemma C2_nothing_written :
  decryptAggregatedModel' 8 summary_payload good_proof requested
    = Success tt requested [Emit (AggregationDecrypted 0)]
  /\ execute' requested (resolves_aggregation summary_payload good_proof)
     = (requested, [Emit (AggregationDecrypted 0)])
  /\ forall marker : Storage -> bool,
       marker (fst (execute' requested
                      (resolves_aggregation summary_payload good_proof)))
       = marker requested.
Proof.
  assert (H : execute' requested (resolves_aggregation summary_payload good_proof)
              = (requested, [Emit (AggregationDecrypted 0)]))
    by (vm_compute; reflexivity).
  split; [vm_compute; reflexivity|]. split; [exact H|].
  intros marker. rewrite H. reflexivity.
Qed.

Lemma C2_aggregate_resolution_witness :
  decryptAggregatedModel' 8 summary_payload good_proof requested
    = Success tt requested [Emit (AggregationDecrypted 0)]
  /\ requested = requested
  /\ [Emit (AggregationDecrypted 0)] = [Emit (AggregationDecrypted 0)].
Proof.
  assert (H : decryptAggregatedModel' 8 summary_payload good_proof requested
              = Success tt requested [Emit (AggregationDecrypted 0)])
    by (vm_compute; reflexivity).
  split; [exact H|].
  exact (C2_aggregate_resolution_writes_nothing test_checkSignatures Abi.decode
           requested requested _ 8 summary_payload good_proof H).
Defined.

(** C3 fails on the contract: the model updates 1 and 2 exist, the batch
    [1; 2] is not empty, and the request still fails, in the library, because
    the contract is not allowed on their handles; nothing is stored.  The
    batch over the unknown id 42 fails in the same way, on the zero handle,
    and not on a check of the id. *)
Lemma C3_known_ids_rejected :
  (exists u1 u2, modelUpdates requested !! 1 = Some u1
                 /\ modelUpdates requested !! 2 = Some u2)
  /\ WithAcl.requestAggregationDecryption acl_nothing_allowed
       (mkEnv alice 1013 10) [1; 2] 0xc3 requested
     = Failure SenderNotAllowed
  /\ WithAcl.execute_request acl_nothing_allowed
       (mkEnv alice 1013 10) [1; 2] 0xc3 requested
     = (requested, [])
  /\ modelUpdates requested !! 42 = None
  /\ WithAcl.requestAggregationDecryption acl_nothing_allowed
       (mkEnv alice 1013 10) [42] 0xc3 requested
     = Failure SenderNotAllowed.
Proof.
  split; [eexists; eexists; split; vm_compute; reflexivity|].
  split; [vm_compute; reflexivity|].
  split; [vm_compute; reflexivity|].
  split; vm_compute; reflexivity.
Qed.

Lemma C4_unknown_request_witness :
  ~ In 99 (issued (log_after' history))
  /\ resolve' decryptSuggestion_selector 99 advice_payload good_proof
       (state_after' history)
     = Failure (Revert "invalid")
  /\ execute' (state_after' history)
       (mkTx (env_at oracle 1010)
          (call_resolve decryptSuggestion_selector 99 advice_payload good_proof))
     = (state_after' history, []).
Proof.
  assert (H : ~ In 99 (issued (log_after' history))) by absent.
  split; [exact H|].
  exact (C4_unknown_request_rejected test_checkSignatures Abi.decode history
           decryptSuggestion_selector 99 advice_payload good_proof
           (env_at oracle 1010) H).
Defined.

(** C5 fails on the contract as it is worded: request 7 is pending, a first
    call with a rejected proof is rolled back, and the next call carries a
    proof the oracle accepts -- yet it reverts, in [abi.decode], because its
    payload is the 32-byte word of the number 5 (the cleartext of a
    [euint32]) and not the encoding of a [string[]].  An accepted proof
    alone does not make the call succeed. *)
Lemma C5_accepted_proof_undecodable_payload :
  binding decryptSuggestion_selector requested 7 <> 0
  /\ test_checkSignatures 7 (Abi.word 5) bad_proof = false
  /\ execute' requested (resolves_suggestion (Abi.word 5) bad_proof)
     = (requested, [])
  /\ test_checkSignatures 7 (Abi.word 5) good_proof = true
  /\ Abi.decode (Abi.word 5) = None
  /\ decryptSuggestion' 7 (Abi.word 5) good_proof
       (fst (execute' requested (resolves_suggestion (Abi.word 5) bad_proof)))
     = Failure DecodeFailure
  /\ execute'
       (fst (execute' requested (resolves_suggestion (Abi.word 5) bad_proof)))
       (resolves_suggestion (Abi.word 5) good_proof)
     = (requested, []).
Proof.
  split; [vm_compute; discriminate|].
  split; [reflexivity|].
  split; [vm_compute; reflexivity|].
  split; [reflexivity|].
  split; [vm_compute; reflexivity|].
  split; vm_compute; reflexivity.
Qed.

Lemma C5_invalid_proof_witness :
  binding decryptSuggestion_selector requested 7 <> 0
  /\ test_checkSignatures 7 advice_payload bad_proof = false
  /\ test_checkSignatures 7 advice_payload good_proof = true
  /\ Abi.decode advice_payload = Some ["Increase irrigation by 10%"%string]
  /\ resolve' decryptSuggestion_selector 7 advice_payload bad_proof requested
     = Failure InvalidSignatures
  /\ execute' requested (resolves_suggestion advice_payload bad_proof)
     = (requested, [])
  /\ binding decryptSuggestion_selector
       (fst (execute' requested (resolves_suggestion advice_payload bad_proof))) 7
     <> 0
  /\ (forall anyId anyCleartexts anyProof,
        resolve' decryptSuggestion_selector anyId anyCleartexts anyProof
          (fst (execute' requested (resolves_suggestion advice_payload bad_proof)))
        = resolve' decryptSuggestion_selector anyId anyCleartexts anyProof requested)
  /\ exists s' log,
       resolve' decryptSuggestion_selector 7 advice_payload good_proof
         (fst (execute' requested (resolves_suggestion advice_payload bad_proof)))
       = Success tt s' log.
Proof.
  assert (H1 : binding decryptSuggestion_selector requested 7 <> 0)
    by (vm_compute; discriminate).
  assert (H2 : test_checkSignatures 7 advice_payload bad_proof = false)
    by reflexivity.
  assert (H3 : test_checkSignatures 7 advice_payload good_proof = true)
    by reflexivity.
  assert (H4 : Abi.decode advice_payload = Some ["Increase irrigation by 10%"%string])
    by (vm_compute; reflexivity).
  split; [exact H1|]. split; [exact H2|]. split; [exact H3|]. split; [exact H4|].
  exact (C5_invalid_proof_keeps_request_pending test_checkSignatures Abi.decode
           decryptSuggestion_selector requested 7 (env_at oracle 1010)
           advice_payload bad_proof advice_payload good_proof _ H1 H2 H3 H4).
Defined.

Lemma C6_suggestion_stored_witness :
  sload 0 (requestToEntityId resolved_once) 7 <> 0
  /\ test_checkSignatures 7 empty_payload good_proof = true
  /\ Abi.decode empty_payload = Some []
  /\ exists s',
       decryptSuggestion' 7 empty_payload good_proof resolved_once
         = Success tt s' [Emit (SuggestionDecrypted
                                  (uint160 (sload 0 (requestToEntityId resolved_once) 7)))]
       /\ getSuggestion s' (uint160 (sload 0 (requestToEntityId resolved_once) 7))
          = (""%string, false)
       /\ (([] : list string) = [] ->
           getSuggestion s' (uint160 (sload 0 (requestToEntityId resolved_once) 7))
           = (""%string, false))
       /\ forall other,
            other <> uint160 (sload 0 (requestToEntityId resolved_once) 7) ->
            getSuggestion s' other = getSuggestion resolved_once other.
Proof.
  assert (H1 : sload 0 (requestToEntityId resolved_once) 7 <> 0)
    by (vm_compute; discriminate).
  assert (H2 : test_checkSignatures 7 empty_payload good_proof = true)
    by reflexivity.
  assert (H3 : Abi.decode empty_payload = Some []) by (vm_compute; reflexivity).
  split; [exact H1|]. split; [exact H2|]. split; [exact H3|].
  exact (C6_suggestion_stored test_checkSignatures Abi.decode resolved_once 7
           empty_payload good_proof [] H1 H2 H3).
Defined.

Lemma C8_getSuggestion_default_witness :
  ~ In (Emit (SuggestionDecrypted alice))
      (log_after' (history ++ [resolves_suggestion advice_payload good_proof]))
  /\ getSuggestion
       (state_after' (history ++ [resolves_suggestion advice_payload good_proof]))
       alice
     = (""%string, false).
Proof.
  assert (H : ~ In (Emit (SuggestionDecrypted alice))
                (log_after' (history ++ [resolves_suggestion advice_payload good_proof])))
    by absent.
  split; [exact H|].
  exact (C8_getSuggestion_default test_checkSignatures Abi.decode _ alice H).
Defined.

(** Request 5 is an aggregation request with context zero: issued on top of
    [requested] and followed by the resolution of the suggestion request, it
    is refused by both callbacks. *)
Lemma C9_wrong_kind_witness :
  In 5 (issued (snd (execute' requested requests_aggregation_without_context)))
  /\ ~ In 5 (issued (snd (run' (fst (execute' requested
                                       requests_aggregation_without_context))
                            [requests_suggestion_for_nobody;
                             resolves_suggestion advice_payload good_proof])))
  /\ decryptSuggestion' 5 summary_payload good_proof
       (fst (run' (fst (execute' requested requests_aggregation_without_context))
               [requests_suggestion_for_nobody;
                resolves_suggestion advice_payload good_proof]))
     = Failure (Revert "invalid")
  /\ (0 = 0 ->
      decryptAggregatedModel' 5 summary_payload good_proof
        (fst (run' (fst (execute' requested requests_aggregation_without_context))
                [requests_suggestion_for_nobody;
                 resolves_suggestion advice_payload good_proof]))
      = Failure (Revert "invalid")).
Proof.
  assert (H1 : In 5 (issued (snd (execute' requested
                                    requests_aggregation_without_context))))
    by (vm_compute; left; reflexivity).
  assert (H2 : ~ In 5 (issued (snd (run' (fst (execute' requested
                                       requests_aggregation_without_context))
                            [requests_suggestion_for_nobody;
                             resolves_suggestion advice_payload good_proof]))))
    by absent.
  split; [exact H1|]. split; [exact H2|].
  exact (C9_wrong_kind_callback_reverts test_checkSignatures Abi.decode requested
           requests_aggregation_without_context
           [requests_suggestion_for_nobody;
            resolves_suggestion advice_payload good_proof]
           5 summary_payload good_proof H1 H2).
Defined.

(** ** The further properties on the deployment *)

(** Sensor record 2, as [bob] submitted it, and model update 1. *)
Example second_sensor_record :
  sensorData (state_after' history) !! 2
  = Some (EncryptedSensorData.mk 2 bob 21 22 23 24 1003).
Proof. vm_compute. reflexivity. Qed.

Example unknown_sensor_record_reads_zero :
  sload EncryptedSensorData.zero (sensorData (state_after' history)) 4
  = EncryptedSensorData.zero.
Proof. vm_compute. reflexivity. Qed.

Lemma X3_sensor_record_immutable_witness :
  sensorData (state_after' history) !! 2
    = Some (EncryptedSensorData.mk 2 bob 21 22 23 24 1003)
  /\ sensorData
       (state_after' (history ++ [resolves_suggestion advice_payload good_proof;
                                  requests_unknown])) !! 2
     = Some (EncryptedSensorData.mk 2 bob 21 22 23 24 1003).
Proof.
  assert (H : sensorData (state_after' history) !! 2
              = Some (EncryptedSensorData.mk 2 bob 21 22 23 24 1003))
    by (vm_compute; reflexivity).
  split; [exact H|].
  exact (X3_sensor_record_immutable test_checkSignatures Abi.decode history
           [resolves_suggestion advice_payload good_proof; requests_unknown]
           2 _ H).
Defined.

Lemma X4_model_record_immutable_witness :
  modelUpdates (state_after' history) !! 1
    = Some (EncryptedModelUpdate.mk 1 bob 0xe1 1002)
  /\ modelUpdates
       (state_after' (history ++ [resolves_aggregation summary_payload good_proof;
                                  requests_unknown])) !! 1
     = Some (EncryptedModelUpdate.mk 1 bob 0xe1 1002).
Proof.
  assert (H : modelUpdates (state_after' history) !! 1
              = Some (EncryptedModelUpdate.mk 1 bob 0xe1 1002))
    by (vm_compute; reflexivity).
  split; [exact H|].
  exact (X4_model_record_immutable test_checkSignatures Abi.decode history
           [resolves_aggregation summary_payload good_proof; requests_unknown]
           1 _ H).
Defined.

Lemma X7_submissions_succeed_witness :
  Z.of_nat (length history) < uint256_max
  /\ (exists s',
        submitEncryptedSensorData (env_at bob 1012) 41 42 43 44 (state_after' history)
        = Success tt s'
            [Emit (SensorDataSubmitted
                     (sensorUploadCount (state_after' history) + 1) bob 1012)])
  /\ (exists s',
        submitEncryptedModelUpdate (env_at bob 1012) 0xe3 (state_after' history)
        = Success tt s'
            [Emit (ModelUpdateSubmitted
                     (modelUpdateCount (state_after' history) + 1) bob 1012)]).
Proof.
  assert (H : Z.of_nat (length history) < uint256_max)
    by (vm_compute; reflexivity).
  split; [exact H|].
  exact (X7_submissions_succeed test_checkSignatures Abi.decode history
           (env_at bob 1012) 41 42 43 44 0xe3 H).
Defined.




Lemma X15_suggestion_implies_request_witness :
  suggestions
    (state_after' (history ++ [resolves_suggestion advice_payload good_proof]))
    !! bob
  = Some (DecryptedSuggestion.mk "Increase irrigation by 10%" false)
  /\ In (Emit (SuggestionDecrypted bob))
       (log_after' (history ++ [resolves_suggestion advice_payload good_proof]))
  /\ exists requestId requested,
       In (Emit (SuggestionDecryptionRequested requestId requested))
         (log_after' (history ++ [resolves_suggestion advice_payload good_proof]))
       /\ uint160 requested = bob.
Proof.
  assert (H : suggestions
                (state_after' (history
                               ++ [resolves_suggestion advice_payload good_proof]))
                !! bob
              = Some (DecryptedSuggestion.mk "Increase irrigation by 10%" false))
    by (vm_compute; reflexivity).
  split; [exact H|].
  exact (X15_suggestion_implies_request test_checkSignatures Abi.decode _ bob _ H).
Defined.

Lemma X16_advice_persists_witness :
  sload 0 (requestToEntityId requested) 7 <> 0
  /\ test_checkSignatures 7 advice_payload good_proof = true
  /\ Abi.decode advice_payload = Some ["Increase irrigation by 10%"%string]
  /\ ~ In (Emit (SuggestionDecrypted
                  (uint160 (sload 0 (requestToEntityId requested) 7))))
         (snd (run' (fst (execute' requested
                            (resolves_suggestion advice_payload good_proof)))
                 [requests_suggestion_for_nobody;
                  resolves_aggregation summary_payload good_proof;
                  resolves_suggestion second_payload bad_proof]))
  /\ getSuggestion
       (fst (run' (fst (execute' requested
                          (resolves_suggestion advice_payload good_proof)))
               [requests_suggestion_for_nobody;
                resolves_aggregation summary_payload good_proof;
                resolves_suggestion second_payload bad_proof]))
       (uint160 (sload 0 (requestToEntityId requested) 7))
     = ("Increase irrigation by 10%"%string, false).
Proof.
  assert (H1 : sload 0 (requestToEntityId requested) 7 <> 0)
    by (vm_compute; discriminate).
  assert (H2 : test_checkSignatures 7 advice_payload good_proof = true)
    by reflexivity.
  assert (H3 : Abi.decode advice_payload = Some ["Increase irrigation by 10%"%string])
    by (vm_compute; reflexivity).
  assert (H4 : ~ In (Emit (SuggestionDecrypted
                  (uint160 (sload 0 (requestToEntityId requested) 7))))
         (snd (run' (fst (execute' requested
                            (resolves_suggestion advice_payload good_proof)))
                 [requests_suggestion_for_nobody;
                  resolves_aggregation summary_payload good_proof;
                  resolves_suggestion second_payload bad_proof])))
    by absent.
  split; [exact H1|]. split; [exact H2|]. split; [exact H3|]. split; [exact H4|].
  exact (X16_advice_persists_until_next_resolution test_checkSignatures
           Abi.decode requested (env_at oracle 1010) 7 advice_payload good_proof
           _
           [requests_suggestion_for_nobody;
            resolves_aggregation summary_payload good_proof;
            resolves_suggestion second_payload bad_proof]
           H1 H2 H3 H4).
Defined.

End Evaluation.
